(** * SyncroRMM: contact export over a paginated REST API

    A shallow embedding of [syncro.py].  Python values that travel through
    the program are decoded JSON documents; HTTP, the log, standard output
    and the output file are an explicit world that every effectful
    operation threads.  Generators are state machines advanced by [next]. *)

From Stdlib Require Import ZArith List String Ascii Bool Lia.
From Stdlib Require Import DecimalString.
From Stdlib Require DecimalPos DecimalZ.
Import ListNotations.
Local Open Scope string_scope.
Local Open Scope Z_scope.

Set Warnings "-register-all".

(** ** Python values *)

(** A decoded JSON document, as [response.json()] returns it.  Numbers are
    integers; an object is a Python [dict], kept in insertion order. *)
Inductive json : Type :=
| JNull
| JBool (b : bool)
| JNum (z : Z)
| JStr (s : string)
| JList (l : list json)
| JObj (d : list (string * json)).

Definition pydict : Type := list (string * json).

(** The exceptions the program can meet. *)
Inductive exn : Type :=
| APIError (message : string)
| AttributeError
| IndexError
| KeyError
| TypeError
| ValueError
| JSONDecodeError
| RequestException
| OSError
| UnicodeEncodeError
| StopIteration.

Inductive result (A : Type) : Type :=
| Ok (a : A)
| Raise (e : exn).
Arguments Ok {A} a.
Arguments Raise {A} e.

(** What one [next] on a generator gives: a value, or exhaustion. *)
Inductive step (A : Type) : Type :=
| Yield (a : A)
| Stop.
Arguments Yield {A} a.
Arguments Stop {A}.

(** *** dict operations *)

Fixpoint dict_get (k : string) (d : pydict) : option json :=
  match d with
  | [] => None
  | (k', v) :: d' => if String.eqb k k' then Some v else dict_get k d'
  end.

(** [d[k] = v]: an existing key keeps its position, a new one goes last. *)
Fixpoint dict_set (k : string) (v : json) (d : pydict) : pydict :=
  match d with
  | [] => [(k, v)]
  | (k', v') :: d' =>
      if String.eqb k k' then (k, v) :: d' else (k', v') :: dict_set k v d'
  end.

Definition dict_keys (d : pydict) : list string := map fst d.

Definition in_keys (k : string) (ks : list string) : bool :=
  existsb (String.eqb k) ks.

(** [obj.get(k, default)] *)
Definition py_get (obj : json) (k : string) (default : json) : result json :=
  match obj with
  | JObj d => Ok (match dict_get k d with Some v => v | None => default end)
  | _ => Raise AttributeError
  end.

(** [obj.keys()] turned into a list *)
Definition py_keys (obj : json) : result (list string) :=
  match obj with
  | JObj d => Ok (dict_keys d)
  | _ => Raise AttributeError
  end.

(** [obj[0]] *)
Definition py_index0 (obj : json) : result json :=
  match obj with
  | JList [] => Raise IndexError
  | JList (x :: _) => Ok x
  | JStr EmptyString => Raise IndexError
  | JStr (String c _) => Ok (JStr (String c EmptyString))
  | JObj _ => Raise KeyError
  | _ => Raise TypeError
  end.

(** [iter(obj)], all at once *)
Fixpoint chars (s : string) : list json :=
  match s with
  | EmptyString => []
  | String c s' => JStr (String c EmptyString) :: chars s'
  end.

Definition py_iter (obj : json) : result (list json) :=
  match obj with
  | JList l => Ok l
  | JObj d => Ok (map JStr (dict_keys d))
  | JStr s => Ok (chars s)
  | _ => Raise TypeError
  end.

(** The integer behind a number or a bool ([bool] is a subclass of [int]). *)
Definition as_int (v : json) : option Z :=
  match v with
  | JNum z => Some z
  | JBool true => Some 1
  | JBool false => Some 0
  | _ => None
  end.

(** [a == b] *)
Fixpoint py_eq (a b : json) {struct a} : bool :=
  match a, b with
  | JNull, JNull => true
  | JStr s, JStr t => String.eqb s t
  | JList l, JList m =>
      (fix all2 (l : list json) (m : list json) {struct l} : bool :=
         match l, m with
         | [], [] => true
         | x :: l', y :: m' => py_eq x y && all2 l' m'
         | _, _ => false
         end) l m
  | JObj d, JObj e =>
      Nat.eqb (List.length d) (List.length e) &&
      (fix sub (d : pydict) {struct d} : bool :=
         match d with
         | [] => true
         | (k, v) :: d' =>
             match dict_get k e with
             | Some w => py_eq v w
             | None => false
             end && sub d'
         end) d
  | _, _ =>
      match as_int a, as_int b with
      | Some x, Some y => Z.eqb x y
      | _, _ => false
      end
  end.

(** [a < b]; [None] is the [TypeError] of an unordered pair of types. *)
Fixpoint py_lt (a b : json) {struct a} : option bool :=
  match a, b with
  | JStr s, JStr t => Some (String.ltb s t)
  | JList l, JList m =>
      (fix lex (l : list json) (m : list json) {struct l} : option bool :=
         match l, m with
         | [], [] => Some false
         | [], _ :: _ => Some true
         | _ :: _, [] => Some false
         | x :: l', y :: m' => if py_eq x y then lex l' m' else py_lt x y
         end) l m
  | _, _ =>
      match as_int a, as_int b with
      | Some x, Some y => Some (Z.ltb x y)
      | _, _ => None
      end
  end.

(** [a + 1] *)
Definition py_succ (a : json) : result json :=
  match as_int a with
  | Some x => Ok (JNum (x + 1))
  | None => Raise TypeError
  end.

(** [data.get("meta", {}).get(k, -1)] *)
Definition meta_get (data : json) (k : string) : result json :=
  match py_get data "meta" (JObj []) with
  | Ok meta => py_get meta k (JNum (-1))
  | Raise e => Raise e
  end.

(** [str(n)] for an integer *)
Definition str_of_int (n : Z) : string := NilZero.string_of_int (Z.to_int n).

(** ** The outside world *)

Inductive http_method : Type := GET | POST.

(** One call of [requests.get] or [requests.post], as the program makes it:
    [payload] is the dict handed over as [json=] (GET) or [data=] (POST). *)
Record request : Type := mkRequest {
  meth : http_method;
  url : string;
  req_headers : list (string * string);
  payload : pydict
}.

(** [body] is [None] when the text received does not decode as JSON. *)
Record response : Type := mkResponse {
  status_code : Z;
  reason : string;
  body : option json
}.

(** The transport either delivers a response or fails on its own. *)
Inductive reply : Type :=
| Answer (r : response)
| NoAnswer.

Definition row : Type := list json.

(** The output file: as it was before the run, or truncated by [open(.., "w")]
    and holding the rows written since. *)
Inductive file : Type :=
| Untouched
| Written (rows : list row).

Inductive log_entry : Type :=
| InfoDownloadingAll
| InfoDownloadingCustomer (customer_id : string)
| ErrorLoadingContacts (e : exn)
| ErrorUnknown (e : exn).

Section Program.

(** The remote API is any state machine answering requests. *)
Context {St : Type} (serve : St -> request -> reply * St).

(** What the program acts on: the server, the requests sent so far, the
    log, standard output and the output file, with the two things the
    environment decides about that file: whether [open(path, "w")]
    succeeds, and which lines its text layer can encode (the file is opened
    in the locale's encoding). *)
Record world : Type := mkWorld {
  server : St;
  sent : list request;
  logged : list log_entry;
  printed : list string;
  outfile : file;
  can_open : bool;
  can_encode : row -> bool
}.

Definition M (A : Type) : Type := world -> result A * world.

Definition ret {A} (a : A) : M A := fun w => (Ok a, w).
Definition raise {A} (e : exn) : M A := fun w => (Raise e, w).
Definition lift {A} (r : result A) : M A := fun w => (r, w).
Definition bind {A B} (m : M A) (k : A -> M B) : M B :=
  fun w =>
    match m w with
    | (Ok a, w') => k a w'
    | (Raise e, w') => (Raise e, w')
    end.

Notation "x <- m ;; k" := (bind m (fun x => k))
  (at level 61, m at next level, right associativity).
Notation "' pat <- m ;; k" := (bind m (fun x => match x with pat => k end))
  (at level 61, pat pattern, m at next level, right associativity).

Definition http (req : request) : M response :=
  fun w =>
    let (r, s') := serve (server w) req in
    let w' := mkWorld s' (sent w ++ [req]) (logged w) (printed w)
                      (outfile w) (can_open w) (can_encode w) in
    match r with
    | Answer resp => (Ok resp, w')
    | NoAnswer => (Raise RequestException, w')
    end.

Definition log (entry : log_entry) : M unit :=
  fun w =>
    (Ok tt, mkWorld (server w) (sent w) (logged w ++ [entry]) (printed w)
                    (outfile w) (can_open w) (can_encode w)).

Definition print (line : string) : M unit :=
  fun w =>
    (Ok tt, mkWorld (server w) (sent w) (logged w) (printed w ++ [line])
                    (outfile w) (can_open w) (can_encode w)).

(** [open(path, "w")] *)
Definition open_w : M unit :=
  fun w =>
    if can_open w
    then (Ok tt, mkWorld (server w) (sent w) (logged w) (printed w)
                         (Written []) (can_open w) (can_encode w))
    else (Raise OSError, w).

Definition rows_of (f : file) : list row :=
  match f with
  | Untouched => []
  | Written rs => rs
  end.

(** [fileobj.write(line)], as [csv] calls it once for each row: the text
    layer encodes the whole line before any of it reaches the file, and
    raises when it cannot.  (Faults of the device under the file, such as a
    full disk, are left out.) *)
Definition write_row (r : row) : M unit :=
  fun w =>
    if can_encode w r
    then (Ok tt, mkWorld (server w) (sent w) (logged w) (printed w)
                         (Written (rows_of (outfile w) ++ [r])) (can_open w)
                         (can_encode w))
    else (Raise UnicodeEncodeError, w).

(** [response.json()] *)
Definition response_json (r : response) : result json :=
  match body r with
  | Some j => Ok j
  | None => Raise JSONDecodeError
  end.

(** ** class APIError *)

Definition APIError_init (r : response) : exn :=
  APIError ("Error Response from Syncro [" ++ str_of_int (status_code r)
            ++ "] (" ++ reason r ++ ")").

(** ** class Syncro *)

Record Syncro : Type := mkSyncro {
  base_url : string;
  api_key : string;
  headers : list (string * string)
}.

Definition Syncro_init (base_url api_key : string) : Syncro :=
  mkSyncro base_url api_key
           [("Authorization", api_key); ("Accept", "application/json")].

(** [not parameters] holds of [None] and of the empty dict. *)
Definition truthy (parameters : option pydict) : bool :=
  match parameters with
  | Some (_ :: _) => true
  | _ => false
  end.

(** The dict that [parameters] names once line 45 has run. *)
Definition with_page (parameters : option pydict) (page : json) : pydict :=
  dict_set "page" page
           (match parameters with
            | Some d => if truthy parameters then d else []
            | None => []
            end).

(** [_get_page].  The assignment of line 45 writes into the caller's dict
    when that dict is non-empty, so the caller's binding after the call is
    returned next to the tuple of line 54. *)
Definition _get_page (self : Syncro) (url : string)
    (parameters : option pydict) (page : json)
  : M (option pydict * (json * json * json)) :=
  let sent_parameters := with_page parameters page in
  let parameters' :=
    if truthy parameters then Some sent_parameters else parameters in
  response <- http (mkRequest GET url (headers self) sent_parameters) ;;
  if status_code response =? 200 then
    data <- lift (response_json response) ;;
    page <- lift (meta_get data "page") ;;
    total_pages <- lift (meta_get data "total_pages") ;;
    ret (parameters', (data, page, total_pages))
  else
    raise (APIError_init response).

(** *** Generators

    A generator object is its suspended frame; [next] resumes it up to the
    following [yield].  A frame that raises is never resumed again. *)

(** Frames of [_get_all]: not started, or suspended at a [yield] (lines 71
    and 75 both resume at the test of line 73), or returned. *)
Inductive get_all_frame : Type :=
| GetAllStart (url_prefix : string) (parameters : option pydict)
| GetAllYielded (url : string) (parameters : option pydict)
                (page total_pages : json)
| GetAllReturned.

Definition _get_all_next (self : Syncro) (g : get_all_frame)
  : M (step json * get_all_frame) :=
  match g with
  | GetAllStart url_prefix parameters =>
      let url := base_url self ++ url_prefix in
      '(parameters, (data, page, total_pages)) <-
        _get_page self url parameters (JNum 1) ;;
      ret (Yield data, GetAllYielded url parameters page total_pages)
  | GetAllYielded url parameters page total_pages =>
      match py_lt page total_pages with
      | None => raise TypeError
      | Some false => ret (Stop, GetAllReturned)
      | Some true =>
          next_page <- lift (py_succ page) ;;
          '(parameters, (data, page, total_pages)) <-
            _get_page self url parameters next_page ;;
          ret (Yield data, GetAllYielded url parameters page total_pages)
      end
  | GetAllReturned => ret (Stop, GetAllReturned)
  end.

(** Frames of [all_contacts] and [all_customers]: not started, or inside
    the [for] over the pages, or returned. *)
Inductive accessor_frame : Type :=
| AccessorStart (parameters : option pydict)
| AccessorLoop (pages : get_all_frame)
| AccessorReturned.

Definition accessor_next (self : Syncro) (url_prefix key : string)
    (g : accessor_frame) : M (step json * accessor_frame) :=
  match g with
  | AccessorReturned => ret (Stop, AccessorReturned)
  | _ =>
      let pages :=
        match g with
        | AccessorStart parameters => GetAllStart url_prefix parameters
        | AccessorLoop pages => pages
        | AccessorReturned => GetAllReturned
        end in
      '(item, pages) <- _get_all_next self pages ;;
      match item with
      | Stop => ret (Stop, AccessorReturned)
      | Yield page =>
          collection <- lift (py_get page key (JList [])) ;;
          ret (Yield collection, AccessorLoop pages)
      end
  end.

(** [all_contacts(customer_id)]: the generator object, and its [next]. *)
Definition all_contacts (customer_id : json) : accessor_frame :=
  AccessorStart (Some [("customer_id", customer_id)]).

Definition all_contacts_next (self : Syncro) (g : accessor_frame)
  : M (step json * accessor_frame) :=
  accessor_next self "/contacts" "contacts" g.

(** [all_customers()] *)
Definition all_customers : accessor_frame := AccessorStart None.

Definition all_customers_next (self : Syncro) (g : accessor_frame)
  : M (step json * accessor_frame) :=
  accessor_next self "/customers" "customers" g.

(** [get_headers(generator_func)] *)
Definition get_headers {G : Type} (next : G -> M (step json * G))
    (generator_func : G) : M (list string) :=
  '(item, _) <- next generator_func ;;
  match item with
  | Stop => raise StopIteration
  | Yield page =>
      data <- lift (py_index0 page) ;;
      lift (py_keys data)
  end.

(** The fields [create_contact] lets through. *)
Definition contact_fields : list string :=
  ["customer_id"; "name"; "address1"; "address2"; "city"; "state"; "zip";
   "email"; "phone"; "mobile"; "notes"].

(** [create_contact], given its keyword arguments as a dict *)
Definition create_contact (self : Syncro) (kwargs : pydict) : M bool :=
  let url := base_url self ++ "/contacts" in
  let data :=
    filter (fun kv => in_keys (fst kv) contact_fields) kwargs in
  response <- http (mkRequest POST url (headers self) data) ;;
  if status_code response =? 200 then ret true
  else raise (APIError_init response).

(** ** csv.DictWriter, with its defaults: a missing field is written as the
    empty string, an extra field raises *)

Definition _dict_to_list (fieldnames : list string) (rowdict : json)
  : result row :=
  match rowdict with
  | JObj d =>
      if forallb (fun k => in_keys k fieldnames) (dict_keys d)
      then Ok (map (fun k => match dict_get k d with
                             | Some v => v
                             | None => JStr ""
                             end) fieldnames)
      else Raise ValueError
  | _ => Raise AttributeError
  end.

Definition writeheader (fieldnames : list string) : M unit :=
  write_row (map JStr fieldnames).

(** Rows reach the file one by one; the first bad one stops the writing. *)
Fixpoint write_each (fieldnames : list string) (rowdicts : list json)
  : M unit :=
  match rowdicts with
  | [] => ret tt
  | rowdict :: rest =>
      r <- lift (_dict_to_list fieldnames rowdict) ;;
      _ <- write_row r ;;
      write_each fieldnames rest
  end.

Definition writerows (fieldnames : list string) (rowdicts : json) : M unit :=
  items <- lift (py_iter rowdicts) ;;
  write_each fieldnames items.

(** ** The script *)

Record arguments : Type := mkArguments {
  arg_api_key : string;
  arg_subdomain : string;
  arg_outfile : string;
  arg_customer_id : option string
}.

Definition opt_str (s : option string) : json :=
  match s with
  | Some v => JStr v
  | None => JNull
  end.

(** A computation that may not finish within its fuel: [None] says it was
    still running when the fuel ran out, in the world reached by then. *)
Definition F (A : Type) : Type := world -> option (result A) * world.

(** The [for] of lines 157-158. *)
Fixpoint export_pages (fuel : nat) (api : Syncro) (fieldnames : list string)
    (g : accessor_frame) : F unit :=
  fun w =>
    match fuel with
    | O => (None, w)
    | S fuel' =>
        match all_contacts_next api g w with
        | (Raise e, w') => (Some (Raise e), w')
        | (Ok (Stop, _), w') => (Some (Ok tt), w')
        | (Ok (Yield contacts_page, g'), w') =>
            match writerows fieldnames contacts_page w' with
            | (Raise e, w'') => (Some (Raise e), w'')
            | (Ok _, w'') => export_pages fuel' api fieldnames g' w''
            end
        end
    end.

Definition make_api (args : arguments) : Syncro :=
  Syncro_init ("https://" ++ arg_subdomain args ++ ".syncromsp.com/api/v1")
              (arg_api_key args).

(** Lines 149-152; [not args.customer_id] holds of [None] and of the empty
    string. *)
Definition announcement (args : arguments) : log_entry :=
  match arg_customer_id args with
  | None | Some EmptyString => InfoDownloadingAll
  | Some c => InfoDownloadingCustomer c
  end.

Definition announce (args : arguments) : M unit := log (announcement args).

(** Lines 147-156: everything before the [for]. *)
Definition prepare (args : arguments) : M (list string) :=
  let api := make_api args in
  fieldnames <- get_headers (all_contacts_next api) (all_contacts JNull) ;;
  _ <- announce args ;;
  _ <- open_w ;;
  _ <- writeheader fieldnames ;;
  ret fieldnames.

(** The body of the [try], lines 147-160. *)
Definition export (fuel : nat) (args : arguments) : F unit :=
  fun w =>
    let api := make_api args in
    match prepare args w with
    | (Raise e, w1) => (Some (Raise e), w1)
    | (Ok fieldnames, w1) =>
        match export_pages fuel api fieldnames
                (all_contacts (opt_str (arg_customer_id args))) w1 with
        | (None, w2) => (None, w2)
        | (Some (Raise e), w2) => (Some (Raise e), w2)
        | (Some (Ok _), w2) =>
            let (r, w3) := print ("Contacts saved to " ++ arg_outfile args) w2
            in (Some r, w3)
        end
    end.

(** The handlers of lines 162-168, and the exit status of the process. *)
Definition main (fuel : nat) (args : arguments) (w : world)
  : option Z * world :=
  match export fuel args w with
  | (None, w') => (None, w')
  | (Some (Ok _), w') => (Some 0, w')
  | (Some (Raise (APIError m)), w') =>
      (Some 1, snd (log (ErrorLoadingContacts (APIError m)) w'))
  | (Some (Raise e), w') =>
      (Some 1, snd (log (ErrorUnknown e) w'))
  end.

(** [list(generator)]: every item up to exhaustion. *)
Fixpoint drain {G : Type} (fuel : nat) (next : G -> M (step json * G))
    (g : G) : F (list json) :=
  fun w =>
    match fuel with
    | O => (None, w)
    | S fuel' =>
        match next g w with
        | (Raise e, w') => (Some (Raise e), w')
        | (Ok (Stop, _), w') => (Some (Ok []), w')
        | (Ok (Yield x, g'), w') =>
            match drain fuel' next g' w' with
            | (None, w'') => (None, w'')
            | (Some (Raise e), w'') => (Some (Raise e), w'')
            | (Some (Ok xs), w'') => (Some (Ok (x :: xs)), w'')
            end
        end
    end.

End Program.

Arguments world St : clear implicits.

(** ** Auxiliary notions used in the statements *)

(** Whether a character occurs in a text. *)
Fixpoint mentions (c : ascii) (s : string) : bool :=
  match s with
  | EmptyString => false
  | String a s' => Ascii.eqb a c || mentions c s'
  end.

(** The [page] entry of a request's payload. *)
Definition page_of (r : request) : option json := dict_get "page" (payload r).

(** [w'] differs from [w] by the requests [rs] having been sent, and by
    whatever that did to the server. *)
Definition only_sent {St} (w w' : world St) (rs : list request) : Prop :=
  sent w' = (sent w ++ rs)%list /\
  logged w' = logged w /\
  printed w' = printed w /\
  outfile w' = outfile w /\
  can_open w' = can_open w /\
  can_encode w' = can_encode w.

(** The dict a caller supplied as [parameters]. *)
Definition supplied (parameters : option pydict) : pydict :=
  match parameters with
  | Some d => d
  | None => []
  end.

(** [r] is a page fetch at [url] with the supplied parameters [d]: a GET
    whose payload is [d] with [page] set to some value. *)
Definition page_request (self : Syncro) (url : string) (d : pydict)
    (r : request) : Prop :=
  exists page, r = mkRequest GET url (headers self) (dict_set "page" page d).

(** The frame [g] of [_get_all] fetches at [url] with the supplied
    parameters [d]. *)
Definition fetches (self : Syncro) (url : string) (d : pydict)
    (g : get_all_frame) : Prop :=
  match g with
  | GetAllStart url_prefix parameters =>
      base_url self ++ url_prefix = url /\
      forall page, with_page parameters page = dict_set "page" page d
  | GetAllYielded url' parameters _ _ =>
      url' = url /\
      forall page, with_page parameters page = dict_set "page" page d
  | GetAllReturned => True
  end.

(** The same for a frame of an accessor over the endpoint [url_prefix]. *)
Definition accesses (self : Syncro) (url_prefix : string) (d : pydict)
    (g : accessor_frame) : Prop :=
  match g with
  | AccessorStart parameters =>
      forall page, with_page parameters page = dict_set "page" page d
  | AccessorLoop pages => fetches self (base_url self ++ url_prefix) d pages
  | AccessorReturned => True
  end.

(** The numbers [1 .. n] as page numbers. *)
Definition page_numbers (n : nat) : list json :=
  map (fun i => JNum (Z.of_nat i)) (seq 1 n).

(** [w] with another content of the output file. *)
Definition with_outfile {St} (f : file) (w : world St) : world St :=
  mkWorld (server w) (sent w) (logged w) (printed w) f (can_open w)
          (can_encode w).

(** A computation that neither reads nor writes the output file. *)
Definition file_blind {St A} (m : M (St := St) A) : Prop :=
  forall f w, m (with_outfile f w) = (fst (m w), with_outfile f (snd (m w))).

(** The row [csv.DictWriter] makes of a record under the given header. *)
Definition row_for (fieldnames : list string) (record : pydict) : row :=
  map (fun k => match dict_get k record with
                | Some v => v
                | None => JStr ""
                end) fieldnames.

(** The request that asks for page [page] of the contacts of [customer_id]. *)
Definition contacts_request (self : Syncro) (customer_id page : json)
  : request :=
  mkRequest GET (base_url self ++ "/contacts") (headers self)
            [("customer_id", customer_id); ("page", page)].

(** What header discovery makes of the response to its one request. *)
Definition discover (resp : response) : result (list string) :=
  if status_code resp =? 200 then
    match response_json resp with
    | Raise e => Raise e
    | Ok data =>
        match meta_get data "page", meta_get data "total_pages" with
        | Raise e, _ | Ok _, Raise e => Raise e
        | Ok _, Ok _ =>
            match py_get data "contacts" (JList []) with
            | Raise e => Raise e
            | Ok page =>
                match py_index0 page with
                | Raise e => Raise e
                | Ok record => py_keys record
                end
            end
        end
    end
  else Raise (APIError_init resp).

(** The reply is a 200 whose body reports page [p] of [N]. *)
Definition reports (N p : Z) (rep : reply) : Prop :=
  exists resp data,
    rep = Answer resp
    /\ status_code resp = 200
    /\ body resp = Some data
    /\ meta_get data "page" = Ok (JNum p)
    /\ meta_get data "total_pages" = Ok (JNum N).

(** The server paginates [endpoint] in [N] pages: in any state, a GET there
    for page [p], with [p] from 1 to [N] (page 1 also when [N] is smaller),
    is answered by a report of page [p] of [N]. *)
Definition paginated {St} (serve : St -> request -> reply * St)
    (endpoint : string) (N : Z) : Prop :=
  forall s r p,
    meth r = GET -> url r = endpoint ->
    page_of r = Some (JNum p) ->
    1 <= p -> p <= N \/ p = 1 ->
    reports N p (fst (serve s r)).

(** ** Further notions used in the statements *)

(** What an accessor makes of a page: [page.get(key, [])]. *)
Definition collection_of (key : string) (page : json) : json :=
  match py_get page key (JList []) with
  | Ok v => v
  | Raise _ => JList []
  end.

(** The outcome of a drained generator, with [f] applied to its items. *)
Definition map_items (f : json -> json) (r : option (result (list json)))
  : option (result (list json)) :=
  match r with
  | Some (Ok xs) => Some (Ok (map f xs))
  | Some (Raise e) => Some (Raise e)
  | None => None
  end.

(** The frame an accessor's [for] loop runs over. *)
Definition pages_of (url_prefix : string) (g : accessor_frame)
  : get_all_frame :=
  match g with
  | AccessorStart parameters => GetAllStart url_prefix parameters
  | AccessorLoop pages => pages
  | AccessorReturned => GetAllReturned
  end.

(** The server is stuck at page [p] of [N]: whatever is asked at
    [endpoint], in any state, it reports page [p] of [N]. *)
Definition stuck {St} (serve : St -> request -> reply * St)
    (endpoint : string) (p N : Z) : Prop :=
  forall s r,
    meth r = GET -> url r = endpoint -> reports N p (fst (serve s r)).

(** Every key of the record is a column of the header. *)
Definition fits (fieldnames : list string) (record : pydict) : Prop :=
  forall k, In k (dict_keys record) -> In k fieldnames.

(** The error [csv.DictWriter] raises at something it cannot write. *)
Definition writer_error (item : json) : exn :=
  match item with
  | JObj _ => ValueError
  | _ => AttributeError
  end.

(** The writer can put the record down under the header: its keys are
    columns of the header and the file can encode its row. *)
Definition writable {St} (w : world St) (fieldnames : list string)
    (record : pydict) : Prop :=
  fits fieldnames record /\ can_encode w (row_for fieldnames record) = true.



(** ** Test doubles *)

Module Mock.

Definition contact (id : Z) (name email : string) : json :=
  JObj [("id", JNum id); ("name", JStr name); ("email", JStr email)].

Definition page_body (contacts : list json) (page total_pages : Z) : json :=
  JObj [("contacts", JList contacts);
        ("meta", JObj [("page", JNum page); ("total_pages", JNum total_pages)])].

Definition ok (j : json) : reply := Answer (mkResponse 200 "OK" (Some j)).

Definition failure : reply :=
  Answer (mkResponse 500 "Internal Server Error" None).

(** Two pages of two contacts each; anything else is not found. *)
Definition two_pages (s : unit) (r : request) : reply * unit :=
  match page_of r with
  | Some (JNum 1) =>
      (ok (page_body [contact 1 "Ann" "ann@example.org";
                      contact 2 "Bob" "bob@example.org"] 1 2), tt)
  | Some (JNum 2) =>
      (ok (page_body [contact 3 "Cy" "cy@example.org";
                      contact 4 "Di" "di@example.org"] 2 2), tt)
  | _ => (Answer (mkResponse 404 "Not Found" None), tt)
  end.

(** Every request fails. *)
Definition broken (s : unit) (r : request) : reply * unit := (failure, tt).

(** The first request is answered with one contact, every later one fails:
    the state counts the requests seen. *)
Definition fails_after_first (s : nat) (r : request) : reply * nat :=
  match s with
  | O => (ok (page_body [contact 1 "Ann" "ann@example.org"] 1 1), S s)
  | _ => (failure, S s)
  end.

(** A single page without contacts. *)
Definition no_contacts (s : unit) (r : request) : reply * unit :=
  (ok (page_body [] 1 1), tt).

(** A body without pagination data. *)
Definition no_meta (s : unit) (r : request) : reply * unit :=
  (ok (JObj [("contacts", JList [contact 1 "Ann" "ann@example.org"])]), tt).

Definition fresh {St} (s : St) : world St :=
  mkWorld s [] [] [] Untouched true (fun _ => true).

Definition args (customer_id : option string) : arguments :=
  mkArguments "secret" "acme" "contacts.csv" customer_id.

Definition api : Syncro := make_api (args None).

(** Page 1 of 2, whatever is asked. *)
Definition stuck_at_one (s : unit) (r : request) : reply * unit :=
  (ok (page_body [contact 1 "Ann" "ann@example.org"] 1 2), tt).

(** Pagination data present but null. *)
Definition null_meta (s : unit) (r : request) : reply * unit :=
  (ok (JObj [("contacts", JList [contact 1 "Ann" "ann@example.org"]);
                  ("meta", JObj [("page", JNull); ("total_pages", JNull)])]),
   tt).

(** No answer at all. *)
Definition unreachable (s : unit) (r : request) : reply * unit :=
  (NoAnswer, tt).

(** One contact first; then a page whose second record has a field more. *)
Definition mixed (s : nat) (r : request) : reply * nat :=
  match s with
  | O => (ok (page_body [contact 1 "Ann" "ann@example.org"] 1 1), S s)
  | _ =>
      (ok (page_body
                  [contact 2 "Bob" "bob@example.org";
                   JObj [("id", JNum 3); ("phone", JStr "555")]] 1 1), S s)
  end.


(** The lines a file opened in an ASCII-only encoding takes. *)
Definition ascii_only (r : row) : bool :=
  forallb (fun cell =>
             match cell with
             | JStr s => forallb (fun c => (nat_of_ascii c <? 128)%nat)
                                 (list_ascii_of_string s)
             | _ => true
             end) r.

(** The world at the start, with such an output file. *)
Definition fresh_ascii {St} (s : St) : world St :=
  mkWorld s [] [] [] Untouched true ascii_only.

(** A single page of two contacts, the second with a name that starts
    with a letter outside ASCII. *)
Definition accented (s : unit) (r : request) : reply * unit :=
  (ok (page_body [contact 1 "Ann" "ann@example.org";
                  contact 2 (String (ascii_of_nat 201) "lodie")
                          "elodie@example.org"] 1 1), tt).

End Mock.

(** * Properties *)

(** ** Texts *)

Lemma append_cut (c : ascii) (a a' x x' : string) :
  mentions c a = false -> mentions c a' = false ->
  a ++ String c x = a' ++ String c x' -> a = a' /\ x = x'.
Proof.
  revert a'. induction a as [|h a IH]; intros [|h' a']; simpl; intros Ha Ha' E.
  - inversion E. auto.
  - inversion E; subst h'. rewrite Ascii.eqb_refl in Ha'. discriminate.
  - inversion E; subst h. rewrite Ascii.eqb_refl in Ha. discriminate.
  - apply orb_false_iff in Ha as [_ Ha]. apply orb_false_iff in Ha' as [_ Ha'].
    inversion E; subst h'. destruct (IH a' Ha Ha' H1) as [-> ->]. auto.
Qed.

Lemma digits_mention_no_bracket (d : Decimal.uint) :
  mentions "]" (NilEmpty.string_of_uint d) = false.
Proof. induction d; simpl; auto. Qed.

Lemma str_of_int_no_bracket (n : Z) : mentions "]" (str_of_int n) = false.
Proof.
  unfold str_of_int.
  destruct (Z.to_int n) as [d|d]; simpl; destruct d; simpl;
    auto using digits_mention_no_bracket.
Qed.

Lemma str_of_int_inj (n m : Z) : str_of_int n = str_of_int m -> n = m.
Proof.
  unfold str_of_int. intros E.
  assert (nonnil : forall z, Z.to_int z <> Decimal.Pos Decimal.Nil /\
                             Z.to_int z <> Decimal.Neg Decimal.Nil).
  { intros [|p|p]; simpl; split; try discriminate;
      intros [= H]; exact (DecimalPos.Unsigned.to_uint_nonnil p H). }
  apply (f_equal NilZero.int_of_string) in E.
  rewrite !NilZero.isi in E by apply nonnil.
  injection E as E. apply (f_equal Z.of_int) in E.
  now rewrite !DecimalZ.of_to in E.
Qed.

(** The message of an [APIError] determines the status code and the reason
    it was built from. *)
Lemma APIError_init_inj (r r' : response) :
  APIError_init r = APIError_init r' ->
  status_code r = status_code r' /\ reason r = reason r'.
Proof.
  unfold APIError_init. intros [= E].
  apply append_cut in E; try apply str_of_int_no_bracket.
  destruct E as [E1 E2]. split; [now apply str_of_int_inj|].
  injection E2 as E2. clear E1.
  revert E2. generalize (reason r) (reason r').
  induction s as [|h s IH]; intros [|h' s']; simpl; intros E; auto.
  - destruct s'; discriminate.
  - destruct s; discriminate.
  - injection E as -> E. f_equal. auto.
Qed.

(** ** The client *)

Section Properties.

Context {St : Type} (serve : St -> request -> reply * St).

Notation "x <- m ;; k" := (bind m (fun x => k))
  (at level 61, m at next level, right associativity).
Notation "' pat <- m ;; k" := (bind m (fun x => match x with pat => k end))
  (at level 61, pat pattern, m at next level, right associativity).

Lemma http_sent (req : request) (w : world St) :
  only_sent w (snd (http serve req w)) [req].
Proof.
  unfold http, only_sent.
  destruct (serve (server w) req) as [[resp|] s']; simpl; auto 8.
Qed.

Lemma http_answer (req : request) (w : world St) (resp : response) (s' : St) :
  serve (server w) req = (Answer resp, s') ->
  http serve req w =
    (Ok resp, mkWorld s' (sent w ++ [req]) (logged w) (printed w)
                      (outfile w) (can_open w) (can_encode w)).
Proof. unfold http. now intros ->. Qed.

Ltac run := unfold bind, ret, raise, lift; cbv beta.

Lemma _get_page_sent (self : Syncro) (url : string)
    (parameters : option pydict) (page : json) (w : world St) :
  only_sent w (snd (_get_page serve self url parameters page w))
    [mkRequest GET url (headers self) (with_page parameters page)].
Proof.
  unfold _get_page. run.
  pose proof (http_sent (mkRequest GET url (headers self)
                                   (with_page parameters page)) w) as H.
  destruct (http serve _ w) as [[resp|e] w1]; simpl in *; auto.
  destruct (status_code resp =? 200); simpl; auto.
  destruct (response_json resp) as [data|]; simpl; auto.
  destruct (meta_get data "page"); simpl; auto.
  destruct (meta_get data "total_pages"); simpl; auto.
Qed.

Lemma _get_page_error (self : Syncro) (url : string)
    (parameters : option pydict) (page : json) (w : world St)
    (resp : response) (s' : St) :
  serve (server w) (mkRequest GET url (headers self)
                              (with_page parameters page)) = (Answer resp, s') ->
  status_code resp <> 200 ->
  fst (_get_page serve self url parameters page w) = Raise (APIError_init resp).
Proof.
  intros Hs Hc. unfold _get_page. run.
  rewrite (http_answer _ _ _ _ Hs).
  apply Z.eqb_neq in Hc. now rewrite Hc.
Qed.

(** C3. Whenever the server answers a page fetch ([_get_page]) or the POST
    of [create_contact] with a status code other than 200, the call raises
    an [APIError] and returns no value.  The error's message is built from
    the response's own status code and reason, and determines both: two
    responses that give the same error agree on code and reason. *)
Theorem C3_non_200_raises_APIError (self : Syncro) (w : world St)
    (resp : response) (s' : St) :
  status_code resp <> 200 ->
  (forall url parameters page,
      serve (server w) (mkRequest GET url (headers self)
                                  (with_page parameters page))
      = (Answer resp, s') ->
      fst (_get_page serve self url parameters page w)
      = Raise (APIError ("Error Response from Syncro ["
                         ++ str_of_int (status_code resp)
                         ++ "] (" ++ reason resp ++ ")")))
  /\ (forall kwargs,
      serve (server w)
            (mkRequest POST (base_url self ++ "/contacts") (headers self)
               (filter (fun kv => in_keys (fst kv) contact_fields) kwargs))
      = (Answer resp, s') ->
      fst (create_contact serve self kwargs w)
      = Raise (APIError ("Error Response from Syncro ["
                         ++ str_of_int (status_code resp)
                         ++ "] (" ++ reason resp ++ ")")))
  /\ (forall resp' : response,
      APIError_init resp' = APIError_init resp ->
      status_code resp' = status_code resp /\ reason resp' = reason resp).
Proof.
  intros Hc. split; [|split].
  - intros url parameters page Hs.
    now rewrite (_get_page_error _ _ _ _ _ _ _ Hs Hc).
  - intros kwargs Hs. unfold create_contact. run.
    rewrite (http_answer _ _ _ _ Hs). apply Z.eqb_neq in Hc. now rewrite Hc.
  - intros resp' E. exact (APIError_init_inj _ _ E).
Qed.

Lemma in_keys_In (k : string) (ks : list string) :
  in_keys k ks = true <-> In k ks.
Proof.
  unfold in_keys. rewrite existsb_exists. split.
  - intros (x & Hx & E). apply String.eqb_eq in E. now subst.
  - intros H. exists k. split; auto. apply String.eqb_refl.
Qed.

Lemma dict_get_filter (keep : string -> bool) (k : string) (d : pydict) :
  keep k = true ->
  dict_get k (filter (fun kv => keep (fst kv)) d) = dict_get k d.
Proof.
  intros Hk. induction d as [|[k' v] d IH]; simpl; auto.
  destruct (String.eqb_spec k k') as [<-|Hne].
  - rewrite Hk. simpl. now rewrite String.eqb_refl.
  - destruct (keep k'); simpl; auto.
    destruct (String.eqb_spec k k'); [contradiction|auto].
Qed.

Lemma dict_keys_filter (keep : string -> bool) (d : pydict) :
  dict_keys (filter (fun kv => keep (fst kv)) d) = filter keep (dict_keys d).
Proof.
  induction d as [|[k v] d IH]; simpl; auto.
  destruct (keep k); simpl; now rewrite IH.
Qed.

(** C4. [create_contact] sends exactly one request, a POST to [/contacts],
    whose body holds exactly the input entries whose key is one of
    customer_id, name, address1, address2, city, state, zip, email, phone,
    mobile, notes: the other keys are dropped, the kept ones come in the
    input's order with their values unchanged.  It returns [True] exactly
    when the server answers that request with status 200, and never
    returns anything else. *)
Theorem C4_create_contact_allow_list (self : Syncro) (kwargs : pydict)
    (w : world St) :
  let allowed :=
    ["customer_id"; "name"; "address1"; "address2"; "city"; "state"; "zip";
     "email"; "phone"; "mobile"; "notes"] in
  exists req : request,
    only_sent w (snd (create_contact serve self kwargs w)) [req]
    /\ meth req = POST
    /\ url req = base_url self ++ "/contacts"
    /\ (forall k v, In (k, v) (payload req) <->
                    In (k, v) kwargs /\ In k allowed)
    /\ dict_keys (payload req)
       = filter (fun k => in_keys k allowed) (dict_keys kwargs)
    /\ (forall k, In k allowed ->
                  dict_get k (payload req) = dict_get k kwargs)
    /\ (fst (create_contact serve self kwargs w) = Ok true <->
        exists resp s', serve (server w) req = (Answer resp, s')
                        /\ status_code resp = 200)
    /\ fst (create_contact serve self kwargs w) <> Ok false.
Proof.
  intros allowed.
  set (req := mkRequest POST (base_url self ++ "/contacts") (headers self)
                (filter (fun kv => in_keys (fst kv) contact_fields) kwargs)).
  exists req.
  split.
  { unfold create_contact; fold req; run.
    pose proof (http_sent req w) as H.
    destruct (http serve req w) as [[resp|e] w1]; simpl in *; auto.
    destruct (status_code resp =? 200); simpl; apply H. }
  split; [reflexivity|]. split; [reflexivity|].
  split.
  { intros k v. simpl. rewrite filter_In. simpl.
    now rewrite (in_keys_In k contact_fields). }
  split.
  { apply (dict_keys_filter (fun k => in_keys k contact_fields)). }
  split.
  { intros k Hk.
    apply (dict_get_filter (fun k => in_keys k contact_fields)).
    now apply in_keys_In. }
  unfold create_contact; fold req; run. unfold http.
  destruct (serve (server w) req) as [[resp|] s']; simpl.
  - destruct (Z.eqb_spec (status_code resp) 200); simpl.
    + split; [|discriminate]. split; auto. intros _. exists resp, s'. auto.
    + split; [|discriminate]. split; [discriminate|].
      intros (resp' & s'' & [= <- <-] & Hc). contradiction.
  - split; [|discriminate]. split; [discriminate|].
    intros (resp' & s'' & [=] & _).
Qed.

(** *** dicts *)

Lemma dict_set_set (k : string) (v v' : json) (d : pydict) :
  dict_set k v' (dict_set k v d) = dict_set k v' d.
Proof.
  induction d as [|[k' x] d IH]; simpl.
  - now rewrite String.eqb_refl.
  - destruct (String.eqb_spec k k') as [<-|Hne]; simpl.
    + now rewrite String.eqb_refl.
    + destruct (String.eqb_spec k k'); [contradiction|]. now rewrite IH.
Qed.

Lemma dict_get_set_same (k : string) (v : json) (d : pydict) :
  dict_get k (dict_set k v d) = Some v.
Proof.
  induction d as [|[k' x] d IH]; simpl.
  - now rewrite String.eqb_refl.
  - destruct (String.eqb_spec k k') as [<-|Hne]; simpl.
    + now rewrite String.eqb_refl.
    + destruct (String.eqb_spec k k'); [contradiction|]. exact IH.
Qed.

Lemma dict_get_set_other (k k' : string) (v : json) (d : pydict) :
  k <> k' -> dict_get k (dict_set k' v d) = dict_get k d.
Proof.
  intros Hne. induction d as [|[k'' x] d IH]; simpl.
  - destruct (String.eqb_spec k k'); [contradiction|reflexivity].
  - destruct (String.eqb_spec k' k'') as [<-|Hne']; simpl.
    + destruct (String.eqb_spec k k'); [contradiction|reflexivity].
    + destruct (String.eqb_spec k k''); auto.
Qed.

Lemma dict_set_truthy (k : string) (v : json) (d : pydict) :
  truthy (Some (dict_set k v d)) = true.
Proof.
  destruct d as [|[k' x] d]; simpl; auto. now destruct (String.eqb k k').
Qed.

(** Line 44 replaces only what is empty anyway. *)
Lemma with_page_supplied (parameters : option pydict) (page : json) :
  with_page parameters page = dict_set "page" page (supplied parameters).
Proof. now destruct parameters as [[|kv d]|]. Qed.

(** Fetching again through the dict a first fetch has written into sends
    what a fetch through the original would. *)
Lemma with_page_again (parameters : option pydict) (page page' : json) :
  with_page (if truthy parameters then Some (with_page parameters page)
             else parameters) page'
  = with_page parameters page'.
Proof.
  destruct (truthy parameters) eqn:T; auto.
  rewrite !with_page_supplied. simpl. apply dict_set_set.
Qed.

(** *** One page *)

Lemma _get_page_parameters (self : Syncro) (url : string)
    (parameters : option pydict) (page : json) (w : world St)
    (parameters' : option pydict) (x : json * json * json) :
  fst (_get_page serve self url parameters page w) = Ok (parameters', x) ->
  parameters' = if truthy parameters then Some (with_page parameters page)
                else parameters.
Proof.
  unfold _get_page. run.
  destruct (http serve _ w) as [[resp|e] w1]; simpl; [|discriminate].
  destruct (status_code resp =? 200); simpl; [|discriminate].
  destruct (response_json resp) as [data|]; simpl; [|discriminate].
  destruct (meta_get data "page"); simpl; [|discriminate].
  destruct (meta_get data "total_pages"); simpl; [|discriminate].
  now intros [= <- _].
Qed.

Lemma _get_page_ok (self : Syncro) (url : string)
    (parameters : option pydict) (page : json) (w : world St)
    (resp : response) (s' : St) (data pg tp : json) :
  serve (server w) (mkRequest GET url (headers self)
                              (with_page parameters page)) = (Answer resp, s') ->
  status_code resp = 200 ->
  body resp = Some data ->
  meta_get data "page" = Ok pg ->
  meta_get data "total_pages" = Ok tp ->
  _get_page serve self url parameters page w
  = (Ok (if truthy parameters then Some (with_page parameters page)
         else parameters, (data, pg, tp)),
     mkWorld s' (sent w ++ [mkRequest GET url (headers self)
                                      (with_page parameters page)])
             (logged w) (printed w) (outfile w) (can_open w) (can_encode w)).
Proof.
  intros Hs Hc Hb Hp Ht. unfold _get_page. run.
  rewrite (http_answer _ _ _ _ Hs). apply Z.eqb_eq in Hc. rewrite Hc.
  unfold response_json. rewrite Hb. simpl. rewrite Hp. simpl. now rewrite Ht.
Qed.

(** *** One step of a generator *)

Lemma only_sent_refl (w : world St) : only_sent w w [].
Proof. unfold only_sent. rewrite app_nil_r. auto 8. Qed.

Lemma only_sent_trans (w1 w2 w3 : world St) (rs rs' : list request) :
  only_sent w1 w2 rs -> only_sent w2 w3 rs' -> only_sent w1 w3 (rs ++ rs').
Proof.
  unfold only_sent.
  intros (A1 & A2 & A3 & A4 & A5 & A6) (B1 & B2 & B3 & B4 & B5 & B6).
  rewrite B1, A1, app_assoc. repeat split; congruence.
Qed.

Ltac split4 := split; [|split; [|split]].

Lemma _get_all_next_fetches (self : Syncro) (url : string) (d : pydict)
    (g : get_all_frame) (w : world St) :
  fetches self url d g ->
  exists reqs,
    only_sent w (snd (_get_all_next serve self g w)) reqs
    /\ Forall (page_request self url d) reqs
    /\ (List.length reqs <= 1)%nat
    /\ forall y g', fst (_get_all_next serve self g w) = Ok (y, g') ->
                    fetches self url d g'.
Proof.
  assert (one : forall u parameters page,
             u = url ->
             (forall v, with_page parameters v = dict_set "page" v d) ->
             let R := _get_page serve self u parameters page w in
             exists reqs, only_sent w (snd R) reqs
                          /\ Forall (page_request self url d) reqs
                          /\ (List.length reqs <= 1)%nat).
  { intros u parameters page -> Hp R.
    exists [mkRequest GET url (headers self) (with_page parameters page)].
    split; [apply _get_page_sent|]. split; [|simpl; lia].
    constructor; [|constructor]. exists page. now rewrite Hp. }
  destruct g as [url_prefix parameters|u parameters pg tp|];
    simpl; intros Hg.
  - destruct Hg as [Hu Hp].
    destruct (one _ parameters (JNum 1) Hu Hp) as (reqs & H1 & H2 & H3).
    exists reqs. run.
    pose proof (_get_page_parameters self (base_url self ++ url_prefix)
                  parameters (JNum 1) w) as Hq.
    destruct (_get_page serve self _ parameters (JNum 1) w)
      as [[[p' [[data pg'] tp']]|e] w1]; simpl in *.
    + split4; auto. intros y g' [= <- <-]. simpl. split; auto.
      intros v. rewrite (Hq _ _ eq_refl), with_page_again. apply Hp.
    + split4; auto. discriminate.
  - destruct Hg as [Hu Hp].
    destruct (py_lt pg tp) as [[|]|]; run.
    + destruct (py_succ pg) as [next_page|e]; simpl.
      * destruct (one _ parameters next_page Hu Hp) as (reqs & H1 & H2 & H3).
        exists reqs.
        pose proof (_get_page_parameters self u parameters next_page w) as Hq.
        destruct (_get_page serve self u parameters next_page w)
          as [[[p' [[data pg'] tp']]|e] w1]; simpl in *.
        -- split4; auto. intros y g' [= <- <-]. simpl. split; auto.
           intros v. rewrite (Hq _ _ eq_refl), with_page_again. apply Hp.
        -- split4; auto. discriminate.
      * exists []. split4; auto using only_sent_refl. discriminate.
    + exists []. split4; auto using only_sent_refl.
      now intros y g' [= <- <-].
    + exists []. split4; auto using only_sent_refl. discriminate.
  - exists []. run. split4; auto using only_sent_refl.
    now intros y g' [= <- <-].
Qed.

Lemma accessor_next_accesses (self : Syncro) (url_prefix key : string)
    (d : pydict) (g : accessor_frame) (w : world St) :
  accesses self url_prefix d g ->
  exists reqs,
    only_sent w (snd (accessor_next serve self url_prefix key g w)) reqs
    /\ Forall (page_request self (base_url self ++ url_prefix) d) reqs
    /\ (List.length reqs <= 1)%nat
    /\ forall y g', fst (accessor_next serve self url_prefix key g w)
                    = Ok (y, g') ->
                    accesses self url_prefix d g'.
Proof.
  intros Hg.
  assert (body : forall pages,
             fetches self (base_url self ++ url_prefix) d pages ->
             let R := ('(item, pages) <- _get_all_next serve self pages ;;
                       match item with
                       | Stop => ret (Stop, AccessorReturned)
                       | Yield page =>
                           collection <- lift (py_get page key (JList [])) ;;
                           ret (Yield collection, AccessorLoop pages)
                       end) w in
             exists reqs,
               only_sent w (snd R) reqs
               /\ Forall (page_request self (base_url self ++ url_prefix) d) reqs
               /\ (List.length reqs <= 1)%nat
               /\ forall y g', fst R = Ok (y, g') ->
                               accesses self url_prefix d g').
  { intros pages Hp.
    destruct (_get_all_next_fetches self _ d pages w Hp)
      as (reqs & H1 & H2 & H3 & H4).
    exists reqs. run.
    destruct (_get_all_next serve self pages w) as [[[item pages']|e] w1];
      simpl in *.
    - destruct item as [page|]; simpl.
      + destruct (py_get page key (JList [])); simpl; split4; auto.
        * intros y g' [= <- <-]. simpl. eauto.
        * discriminate.
      + split4; auto. now intros y g' [= <- <-].
    - split4; auto. discriminate. }
  destruct g as [parameters|pages|].
  - exact (body (GetAllStart url_prefix parameters) (conj eq_refl Hg)).
  - exact (body pages Hg).
  - exists []. unfold accessor_next. run. split4; auto using only_sent_refl.
    now intros y g' [= <- <-].
Qed.

(** *** The file is out of the generators' sight *)

Lemma file_blind_ret {A} (a : A) : file_blind (St := St) (ret a).
Proof. now intros f w. Qed.

Lemma file_blind_raise {A} (e : exn) : file_blind (St := St) (A := A) (raise e).
Proof. now intros f w. Qed.

Lemma file_blind_lift {A} (r : result A) : file_blind (St := St) (lift r).
Proof. now intros f w. Qed.

Lemma file_blind_http (req : request) : file_blind (http serve req).
Proof.
  intros f w. unfold http, with_outfile. simpl.
  now destruct (serve (server w) req) as [[resp|] s'].
Qed.

Lemma file_blind_bind {A B} (m : M A) (k : A -> M (St := St) B) :
  file_blind m -> (forall a, file_blind (k a)) -> file_blind (bind m k).
Proof.
  intros Hm Hk f w. unfold bind. rewrite Hm.
  destruct (m w) as [[a|e] w1]; simpl; auto. apply Hk.
Qed.

Create HintDb blind.
#[local] Hint Resolve file_blind_ret file_blind_raise file_blind_lift file_blind_http
  : blind.

Lemma file_blind_get_page (self : Syncro) (url : string)
    (parameters : option pydict) (page : json) :
  file_blind (_get_page serve self url parameters page).
Proof.
  unfold _get_page. apply file_blind_bind; auto with blind.
  intros resp. destruct (status_code resp =? 200); auto with blind.
  repeat (apply file_blind_bind; auto with blind; intros).
Qed.

Lemma file_blind_get_all_next (self : Syncro) (g : get_all_frame) :
  file_blind (_get_all_next serve self g).
Proof.
  destruct g as [url_prefix parameters|u parameters pg tp|]; simpl;
    auto with blind.
  - apply file_blind_bind; [apply file_blind_get_page|].
    intros [p' [[data pg'] tp']]. auto with blind.
  - destruct (py_lt pg tp) as [[|]|]; auto with blind.
    apply file_blind_bind; auto with blind. intros next_page.
    apply file_blind_bind; [apply file_blind_get_page|].
    intros [p' [[data pg'] tp']]. auto with blind.
Qed.

Lemma file_blind_accessor_next (self : Syncro) (url_prefix key : string)
    (g : accessor_frame) :
  file_blind (accessor_next serve self url_prefix key g).
Proof.
  assert (body : forall pages,
             file_blind ('(item, pages) <- _get_all_next serve self pages ;;
                         match item with
                         | Stop => ret (Stop, AccessorReturned)
                         | Yield page =>
                             collection <- lift (py_get page key (JList [])) ;;
                             ret (Yield collection, AccessorLoop pages)
                         end)).
  { intros pages. apply file_blind_bind; [apply file_blind_get_all_next|].
    intros [[page|] pages']; auto with blind.
    apply file_blind_bind; auto with blind. }
  destruct g; [apply body|apply body|apply file_blind_ret].
Qed.

Lemma drain_file_blind {G} (next : G -> M (step json * G)) :
  (forall g, file_blind (St := St) (next g)) ->
  forall fuel g f w,
    drain fuel next g (with_outfile f w)
    = (fst (drain fuel next g w), with_outfile f (snd (drain fuel next g w))).
Proof.
  intros Hn. induction fuel as [|fuel IH]; intros g f w; simpl; auto.
  rewrite Hn. destruct (next g w) as [[[[x|] g']|e] w1]; simpl; auto.
  rewrite IH. now destruct (drain fuel next g' w1) as [[[xs|e]|] w2].
Qed.

(** *** What the writer leaves in the file *)

Lemma write_each_leaves (fieldnames : list string) (items : list json)
    (w : world St) (rows : list row) :
  outfile w = Written rows ->
  exists more,
    snd (write_each fieldnames items w) = with_outfile (Written (rows ++ more)) w
    /\ (fst (write_each fieldnames items w) = Ok tt ->
        exists records,
          items = map JObj records
          /\ more = map (row_for fieldnames) records).
Proof.
  revert w rows. induction items as [|item items IH]; intros w rows Hw; simpl.
  - exists []. rewrite app_nil_r. split.
    + destruct w; simpl in *. unfold with_outfile. simpl. now rewrite Hw.
    + intros _. now exists [].
  - run. destruct (_dict_to_list fieldnames item) as [r|e] eqn:Hr; simpl.
    + unfold write_row. destruct (can_encode w r); simpl.
      * rewrite Hw. simpl.
        set (w1 := mkWorld _ _ _ _ _ _ _).
        destruct (IH w1 (rows ++ [r])%list eq_refl) as (more & H1 & H2).
        exists (r :: more).
        destruct (write_each fieldnames items w1) as [res w2]; simpl in *.
        split.
        -- rewrite H1. unfold with_outfile. simpl.
           now rewrite <- app_assoc.
        -- intros ->. destruct (H2 eq_refl) as (records & -> & ->).
           destruct item as [| | | | |rec]; simpl in Hr; try discriminate.
           destruct (forallb _ _); [|discriminate]. injection Hr as <-.
           now exists (rec :: records).
      * exists []. rewrite app_nil_r. split; [|discriminate].
        destruct w; simpl in *. unfold with_outfile. simpl. now rewrite Hw.
    + exists []. rewrite app_nil_r. split; [|discriminate].
      destruct w; simpl in *. unfold with_outfile. simpl. now rewrite Hw.
Qed.

Lemma writerows_leaves (fieldnames : list string) (page : json)
    (w : world St) (rows : list row) :
  outfile w = Written rows ->
  exists more,
    snd (writerows fieldnames page w) = with_outfile (Written (rows ++ more)) w
    /\ (fst (writerows fieldnames page w) = Ok tt ->
        exists records,
          py_iter page = Ok (map JObj records)
          /\ more = map (row_for fieldnames) records).
Proof.
  intros Hw. unfold writerows. run.
  destruct (py_iter page) as [items|e]; simpl.
  - destruct (write_each_leaves fieldnames items w rows Hw) as (more & H1 & H2).
    exists more. split; auto. intros H. destruct (H2 H) as (records & -> & ->).
    now exists records.
  - exists []. rewrite app_nil_r. split; [|discriminate].
    destruct w; simpl in *. unfold with_outfile. simpl. now rewrite Hw.
Qed.

(** *** Header discovery *)

Lemma get_headers_answer (self : Syncro) (customer_id : json) (w : world St) :
  get_headers (all_contacts_next serve self) (all_contacts customer_id) w
  = let req := contacts_request self customer_id (JNum 1) in
    let w' := mkWorld (snd (serve (server w) req)) (sent w ++ [req])
                      (logged w) (printed w) (outfile w) (can_open w) (can_encode w) in
    (match fst (serve (server w) req) with
     | NoAnswer => Raise RequestException
     | Answer resp => discover resp
     end, w').
Proof.
  unfold get_headers, all_contacts_next, all_contacts, accessor_next,
    _get_all_next, _get_page, contacts_request, discover.
  run. simpl. unfold http.
  destruct (serve (server w) _) as [[resp|] s']; simpl; auto.
  destruct (status_code resp =? 200); simpl; auto.
  destruct (response_json resp) as [data|]; simpl; auto.
  destruct (meta_get data "page"); simpl; auto.
  destruct (meta_get data "total_pages"); simpl; auto.
  destruct (py_get data "contacts" (JList [])) as [page|]; simpl; auto.
  destruct (py_index0 page) as [record|]; simpl; auto.
Qed.

Lemma prepare_answer (args : arguments) (w : world St) :
  prepare serve args w
  = let req := contacts_request (make_api args) JNull (JNum 1) in
    let net f l :=
      mkWorld (snd (serve (server w) req)) (sent w ++ [req]) l
              (printed w) f (can_open w) (can_encode w) in
    match fst (serve (server w) req) with
    | NoAnswer => (Raise RequestException, net (outfile w) (logged w))
    | Answer resp =>
        match discover resp with
        | Raise e => (Raise e, net (outfile w) (logged w))
        | Ok fieldnames =>
            if can_open w
            then if can_encode w (map JStr fieldnames)
                 then (Ok fieldnames,
                       net (Written [map JStr fieldnames])
                           (logged w ++ [announcement args])%list)
                 else (Raise UnicodeEncodeError,
                       net (Written [])
                           (logged w ++ [announcement args])%list)
            else (Raise OSError,
                  net (outfile w) (logged w ++ [announcement args])%list)
        end
    end.
Proof.
  unfold prepare, bind at 1. rewrite get_headers_answer. simpl.
  destruct (fst (serve (server w) _)) as [resp|]; simpl; auto.
  destruct (discover resp) as [fieldnames|e]; simpl; auto.
  unfold bind, announce, log, open_w, writeheader, write_row, ret. simpl.
  destruct (can_open w) eqn:Ho; simpl; auto.
  destruct (can_encode w (map JStr fieldnames)); simpl; auto.
Qed.

(** *** Whole passes *)

Lemma all_contacts_accesses (self : Syncro) (customer_id : json) :
  accesses self "/contacts" [("customer_id", customer_id)]
           (all_contacts customer_id).
Proof. intros page. reflexivity. Qed.

Lemma drain_accesses (self : Syncro) (url_prefix key : string) (d : pydict) :
  forall fuel g (w : world St),
    accesses self url_prefix d g ->
    exists reqs,
      only_sent w
        (snd (drain fuel (accessor_next serve self url_prefix key) g w)) reqs
      /\ Forall (page_request self (base_url self ++ url_prefix) d) reqs.
Proof.
  induction fuel as [|fuel IH]; intros g w Hg; simpl.
  - exists []. auto using only_sent_refl.
  - destruct (accessor_next_accesses self url_prefix key d g w Hg)
      as (reqs & H1 & H2 & _ & H4).
    destruct (accessor_next serve self url_prefix key g w)
      as [[[[x|] g']|e] w1]; simpl in *; eauto.
    destruct (IH g' w1 (H4 _ _ eq_refl)) as (reqs' & H1' & H2').
    exists (reqs ++ reqs')%list. split.
    + destruct (drain fuel _ g' w1) as [[[xs|e]|] w2]; simpl in *;
        eauto using only_sent_trans.
    + apply Forall_app. auto.
Qed.

Lemma export_pages_trace (self : Syncro) (fieldnames : list string)
    (d : pydict) :
  forall fuel g (w : world St) rows,
    accesses self "/contacts" d g ->
    outfile w = Written rows ->
    exists reqs more,
      let R := export_pages serve fuel self fieldnames g w in
      sent (snd R) = (sent w ++ reqs)%list
      /\ Forall (page_request self (base_url self ++ "/contacts") d) reqs
      /\ logged (snd R) = logged w
      /\ printed (snd R) = printed w
      /\ can_open (snd R) = can_open w
      /\ outfile (snd R) = Written (rows ++ more)
      /\ (fst R = Some (Ok tt) ->
          exists pages records,
            fst (drain fuel (all_contacts_next serve self) g w)
            = Some (Ok pages)
            /\ Forall2 (fun page recs => py_iter page = Ok (map JObj recs))
                       pages records
            /\ more = map (row_for fieldnames) (List.concat records)).
Proof.
  induction fuel as [|fuel IH]; intros g w rows Hg Hw; simpl.
  - exists [], []. rewrite !app_nil_r. repeat split; auto. discriminate.
  - destruct (accessor_next_accesses self "/contacts" "contacts" d g w Hg)
      as (reqs & (S1 & S2 & S3 & S4 & S5 & S6) & H2 & _ & H4).
    unfold all_contacts_next in *.
    destruct (accessor_next serve self "/contacts" "contacts" g w)
      as [[[[page|] g']|e] w1]; simpl in *.
    + assert (Hw1 : outfile w1 = Written rows) by congruence.
      destruct (writerows_leaves fieldnames page w1 rows Hw1)
        as (more & W1 & W2).
      destruct (writerows fieldnames page w1) as [[[]|e] w2] eqn:Ew;
        simpl in *; subst w2.
      * destruct (IH g' (with_outfile (Written (rows ++ more)) w1)
                     (rows ++ more)%list (H4 _ _ eq_refl) eq_refl)
          as (reqs' & more' & T1 & T2 & T3 & T4 & T5 & T6 & T7).
        exists (reqs ++ reqs')%list, (more ++ more')%list.
        simpl in *. rewrite T1, T3, T4, T5, T6, S1, !app_assoc.
        repeat split; auto; try congruence.
        { apply Forall_app. auto. }
        intros E. destruct (T7 E) as (pages & records & D1 & D2 & D3).
        destruct (W2 eq_refl) as (recs & P1 & P2).
        exists (page :: pages), (recs :: records).
        rewrite (drain_file_blind _
                   (file_blind_accessor_next self "/contacts" "contacts")) in D1.
        simpl in D1.
        destruct (drain fuel _ g' w1) as [[[xs|e]|] w3]; simpl in *;
          try discriminate.
        injection D1 as ->. split; auto. split; [constructor; auto|].
        rewrite map_app. now subst more more'.
      * exists reqs, more. simpl.
        repeat split; auto; try congruence.
    + exists reqs, []. rewrite app_nil_r.
      repeat split; auto; try congruence.
      intros _. exists [], []. auto.
    + exists reqs, []. rewrite app_nil_r.
      repeat split; auto; try congruence.
Qed.

Lemma drain_fetches (self : Syncro) (url : string) (d : pydict) :
  forall fuel g (w : world St),
    fetches self url d g ->
    exists reqs,
      only_sent w (snd (drain fuel (_get_all_next serve self) g w)) reqs
      /\ Forall (page_request self url d) reqs.
Proof.
  induction fuel as [|fuel IH]; intros g w Hg; simpl.
  - exists []. auto using only_sent_refl.
  - destruct (_get_all_next_fetches self url d g w Hg)
      as (reqs & H1 & H2 & _ & H4).
    destruct (_get_all_next serve self g w) as [[[[x|] g']|e] w1];
      simpl in *; eauto.
    destruct (IH g' w1 (H4 _ _ eq_refl)) as (reqs' & H1' & H2').
    exists (reqs ++ reqs')%list. split.
    + destruct (drain fuel _ g' w1) as [[[xs|e]|] w2]; simpl in *;
        eauto using only_sent_trans.
    + apply Forall_app. auto.
Qed.

Lemma dict_keys_set (k : string) (v : json) (d : pydict) :
  dict_keys (dict_set k v d)
  = (if in_keys k (dict_keys d) then dict_keys d
     else dict_keys d ++ [k])%list.
Proof.
  unfold in_keys. induction d as [|[k' x] d IH]; simpl; auto.
  destruct (String.eqb_spec k k') as [<-|Hne]; simpl; auto.
  rewrite IH. now destruct (existsb (String.eqb k) (dict_keys d)).
Qed.

(** The first [next] on a fresh [all_contacts] asks for page 1. *)
Lemma all_contacts_first (self : Syncro) (customer_id : json) (w : world St) :
  only_sent w
    (snd (all_contacts_next serve self (all_contacts customer_id) w))
    [contacts_request self customer_id (JNum 1)].
Proof.
  unfold all_contacts_next, all_contacts, accessor_next, _get_all_next. run.
  pose proof (_get_page_sent self (base_url self ++ "/contacts")
                (Some [("customer_id", customer_id)]) (JNum 1) w) as H.
  destruct (_get_page serve self _ _ (JNum 1) w)
    as [[[p' [[data pg] tp]]|e] w1]; simpl in *; auto.
  destruct (py_get data "contacts" (JList [])); simpl; auto.
Qed.

Lemma export_pages_S (fuel : nat) (self : Syncro) (fieldnames : list string)
    (g : accessor_frame) (w : world St) :
  export_pages serve (S fuel) self fieldnames g w
  = match all_contacts_next serve self g w with
    | (Raise e, w') => (Some (Raise e), w')
    | (Ok (Stop, _), w') => (Some (Ok tt), w')
    | (Ok (Yield contacts_page, g'), w') =>
        match writerows fieldnames contacts_page w' with
        | (Raise e, w'') => (Some (Raise e), w'')
        | (Ok _, w'') => export_pages serve fuel self fieldnames g' w''
        end
    end.
Proof. reflexivity. Qed.

Lemma export_pages_first (self : Syncro) (fieldnames : list string)
    (customer_id : json) (fuel : nat) (w : world St) (rows : list row) :
  outfile w = Written rows ->
  exists reqs,
    sent (snd (export_pages serve fuel self fieldnames
                 (all_contacts customer_id) w))
    = (sent w ++ reqs)%list
    /\ Forall (fun r => exists page,
                   r = contacts_request self customer_id page) reqs
    /\ match fuel with
       | O => reqs = []
       | S _ =>
           exists rest,
             reqs = contacts_request self customer_id (JNum 1) :: rest
       end.
Proof.
  intros Hw. destruct fuel as [|fuel].
  - exists []. simpl. rewrite app_nil_r. auto.
  - rewrite export_pages_S.
    pose proof (all_contacts_first self customer_id w)
      as (S1 & S2 & S3 & S4 & S5 & S6).
    destruct (accessor_next_accesses self "/contacts" "contacts" _ _ w
                (all_contacts_accesses self customer_id))
      as (reqs0 & _ & _ & _ & H4).
    unfold all_contacts_next in *.
    destruct (accessor_next serve self "/contacts" "contacts"
                (all_contacts customer_id) w)
      as [[[[page|] g']|e] w1]; simpl in *.
    + assert (Hw1 : outfile w1 = Written rows) by congruence.
      destruct (writerows_leaves fieldnames page w1 rows Hw1)
        as (more & W1 & _).
      destruct (writerows fieldnames page w1) as [[[]|e] w2]; simpl in *;
        subst w2.
      * destruct (export_pages_trace self fieldnames _ fuel g'
                    (with_outfile (Written (rows ++ more)) w1)
                    (rows ++ more)%list (H4 _ _ eq_refl) eq_refl)
          as (reqs' & more' & T1 & T2 & _).
        simpl in *.
        exists (contacts_request self customer_id (JNum 1) :: reqs').
        rewrite T1, S1, <- app_assoc. split; [reflexivity|].
        split; [|eauto].
        constructor; [eauto|].
        eapply Forall_impl; [|exact T2]. intros r [pg ->]. now exists pg.
      * exists [contacts_request self customer_id (JNum 1)].
        simpl. split; auto. split; [|eauto].
        constructor; eauto.
    + exists [contacts_request self customer_id (JNum 1)].
      split; auto. split; [|eauto]. constructor; eauto.
    + exists [contacts_request self customer_id (JNum 1)].
      split; auto. split; [|eauto]. constructor; eauto.
Qed.

(** Everything a run sends: the header-discovery request, then the
    requests of the export pass. *)
Lemma main_requests (fuel : nat) (args : arguments) (w : world St) :
  let api := make_api args in
  let customer_id := opt_str (arg_customer_id args) in
  exists rest,
    sent (snd (main serve fuel args w))
    = (sent w ++ contacts_request api JNull (JNum 1) :: rest)%list
    /\ Forall (fun r => exists page,
                   r = contacts_request api customer_id page) rest
    /\ (rest = [] \/
        exists tl, rest = contacts_request api customer_id (JNum 1) :: tl).
Proof.
  intros api customer_id. unfold main, export. rewrite prepare_answer.
  fold api. simpl.
  destruct (fst (serve (server w) _)) as [resp|]; simpl.
  2:{ exists []. auto. }
  destruct (discover resp) as [fieldnames|e]; simpl.
  2:{ exists []. destruct e; simpl; auto. }
  destruct (can_open w); simpl.
  2:{ exists []. auto. }
  destruct (can_encode w (map JStr fieldnames)); simpl.
  2:{ exists []. auto. }
  set (w1 := mkWorld _ _ _ _ _ _ _).
  destruct (export_pages_first api fieldnames customer_id fuel w1
              [map JStr fieldnames] eq_refl) as (reqs & H1 & H2 & H3).
  fold api customer_id.
  exists reqs. split; [|split; [exact H2|destruct fuel; auto]].
  destruct (export_pages serve fuel api fieldnames _ w1) as [[[[]|e]|] w2];
    simpl in *; try (destruct e; simpl); rewrite H1; unfold w1; simpl;
    now rewrite <- app_assoc.
Qed.

(** Once the header is in the file, the export pass starts over: the
    request after the header-discovery request asks for page 1 again. *)
Lemma main_second_request (fuel : nat) (args : arguments) (w : world St)
    (resp : response) (fieldnames : list string) :
  let api := make_api args in
  let customer_id := opt_str (arg_customer_id args) in
  fst (serve (server w) (contacts_request api JNull (JNum 1))) = Answer resp ->
  discover resp = Ok fieldnames ->
  can_open w = true ->
  can_encode w (map JStr fieldnames) = true ->
  exists tl,
    sent (snd (main serve (S fuel) args w))
    = (sent w ++ contacts_request api JNull (JNum 1)
              :: contacts_request api customer_id (JNum 1) :: tl)%list
    /\ Forall (fun r => exists page,
                   r = contacts_request api customer_id page) tl.
Proof.
  intros api customer_id Hs Hd Ho He. unfold main, export.
  rewrite prepare_answer. fold api. cbv zeta. rewrite Hs, Hd, Ho, He.
  set (w1 := mkWorld _ _ _ _ _ _ _).
  destruct (export_pages_first api fieldnames customer_id (S fuel) w1
              [map JStr fieldnames] eq_refl)
    as (reqs & H1 & H2 & tl & ->).
  fold customer_id. exists tl. split; [|now inversion H2].
  destruct (export_pages serve (S fuel) api fieldnames _ w1)
    as [[[[]|e]|] w2];
    simpl in *; try (destruct e; simpl); rewrite H1; unfold w1; simpl;
    now rewrite <- app_assoc.
Qed.



(** ** The export *)

(** The handler a raised error reaches, and what it logs. *)
Lemma main_of_export (fuel : nat) (args : arguments) (w : world St) :
  main serve fuel args w
  = match export serve fuel args w with
    | (None, w') => (None, w')
    | (Some (Ok _), w') => (Some 0, w')
    | (Some (Raise e), w') =>
        (Some 1,
         mkWorld (server w') (sent w')
                 (logged w' ++ [match e with
                                | APIError _ => ErrorLoadingContacts e
                                | _ => ErrorUnknown e
                                end])
                 (printed w') (outfile w') (can_open w') (can_encode w'))
    end.
Proof.
  unfold main. destruct (export serve fuel args w) as [[[[]|e]|] w']; auto.
  now destruct e.
Qed.



(** C8. If the very first page request of a run (the one made for header
    discovery) is answered with a status other than 200, the process exits
    with code 1, the [APIError] is logged, and the output file is not even
    opened: no row is written.  If that request succeeds and it is the first
    page request of the export pass that fails, the process exits with code
    1 as well and the file holds the header row and nothing else.  (A header
    the file cannot encode ends the run before the export pass, with code 1
    too and no row at all.) *)
Theorem C8_first_page_failure (fuel : nat) (args : arguments) (w : world St) :
  let api := make_api args in
  let peek := contacts_request api JNull (JNum 1) in
  let first := contacts_request api (opt_str (arg_customer_id args)) (JNum 1) in
  (forall resp,
      fst (serve (server w) peek) = Answer resp ->
      status_code resp <> 200 ->
      exists w',
        main serve fuel args w = (Some 1, w')
        /\ outfile w' = outfile w
        /\ sent w' = (sent w ++ [peek])%list
        /\ logged w'
           = (logged w ++ [ErrorLoadingContacts (APIError_init resp)])%list
        /\ printed w' = printed w)
  /\ (forall resp fieldnames resp',
      fst (serve (server w) peek) = Answer resp ->
      discover resp = Ok fieldnames ->
      can_open w = true ->
      fst (serve (snd (serve (server w) peek)) first) = Answer resp' ->
      status_code resp' <> 200 ->
      exists w',
        main serve (S fuel) args w = (Some 1, w')
        /\ printed w' = printed w
        /\ if can_encode w (map JStr fieldnames)
           then outfile w' = Written [map JStr fieldnames]
                /\ sent w' = (sent w ++ [peek; first])%list
                /\ logged w'
                   = (logged w
                      ++ [announcement args;
                          ErrorLoadingContacts (APIError_init resp')])%list
           else outfile w' = Written []
                /\ sent w' = (sent w ++ [peek])%list
                /\ logged w'
                   = (logged w
                      ++ [announcement args;
                          ErrorUnknown UnicodeEncodeError])%list).
Proof.
  intros api peek first. split.
  - intros resp Hs Hc. unfold main, export. rewrite prepare_answer.
    fold api peek. simpl. rewrite Hs. unfold discover.
    apply Z.eqb_neq in Hc. rewrite Hc. simpl. eexists. split; [reflexivity|].
    simpl. auto.
  - intros resp fieldnames resp' Hs Hd Ho Hs' Hc.
    unfold main, export. rewrite prepare_answer.
    fold api peek. cbv zeta. rewrite Hs, Hd, Ho.
    destruct (can_encode w (map JStr fieldnames)).
    2:{ eexists. split; [reflexivity|]. simpl.
        rewrite <- !app_assoc. auto. }
    rewrite export_pages_S.
    unfold all_contacts_next, all_contacts, accessor_next, _get_all_next.
    unfold bind at 1. unfold bind at 1.
    set (w1 := mkWorld _ _ _ _ _ _ _).
    destruct (serve (snd (serve (server w) peek)) first) as [rep s2] eqn:E.
    simpl in Hs'. subst rep.
    pose proof (_get_page_error api (base_url api ++ "/contacts")
                  (Some [("customer_id", opt_str (arg_customer_id args))])
                  (JNum 1) w1 resp' s2 E Hc) as He.
    pose proof (_get_page_sent api (base_url api ++ "/contacts")
                  (Some [("customer_id", opt_str (arg_customer_id args))])
                  (JNum 1) w1) as (S1 & S2 & S3 & S4 & S5 & S6).
    destruct (_get_page serve api _ _ (JNum 1) w1) as [r w2].
    simpl in He. subst r. simpl in *.
    eexists. split; [reflexivity|]. simpl.
    rewrite S1, S2, S3, S4. unfold w1. simpl.
    rewrite <- !app_assoc. auto.
Qed.

(** C9. If the first page fetched holds no contact (the [contacts] list of
    a 200 response is empty, or the key is absent), the run fails in header
    discovery with an error that is not an [APIError]: the generic handler
    logs it, the process exits with code 1, and the output file has not been
    opened.  With well-formed (or absent) pagination data the error is the
    [IndexError] of indexing into the empty list. *)
Theorem C9_empty_first_page (fuel : nat) (args : arguments) (w : world St)
    (resp : response) (d : pydict) :
  fst (serve (server w) (contacts_request (make_api args) JNull (JNum 1)))
  = Answer resp ->
  status_code resp = 200 ->
  body resp = Some (JObj d) ->
  dict_get "contacts" d = None \/ dict_get "contacts" d = Some (JList []) ->
  exists e w',
    fst (export serve fuel args w) = Some (Raise e)
    /\ (forall m, e <> APIError m)
    /\ main serve fuel args w = (Some 1, w')
    /\ logged w' = (logged w ++ [ErrorUnknown e])%list
    /\ outfile w' = outfile w
    /\ printed w' = printed w
    /\ ((exists pg tp, meta_get (JObj d) "page" = Ok pg
                       /\ meta_get (JObj d) "total_pages" = Ok tp) ->
        e = IndexError).
Proof.
  intros Hs Hc Hb Hd.
  assert (D : exists e, discover resp = Raise e
                        /\ (forall m, e <> APIError m)
                        /\ ((exists pg tp,
                                meta_get (JObj d) "page" = Ok pg
                                /\ meta_get (JObj d) "total_pages" = Ok tp) ->
                            e = IndexError)).
  { assert (A : forall k e, meta_get (JObj d) k = Raise e ->
                           e = AttributeError).
    { intros k e. unfold meta_get. simpl.
      destruct (dict_get "meta" d) as [[| | | | |m]|]; simpl;
        congruence. }
    assert (P : py_index0 (match dict_get "contacts" d with
                           | Some v => v
                           | None => JList []
                           end) = Raise IndexError)
      by (destruct Hd as [-> | ->]; reflexivity).
    unfold discover, response_json. apply Z.eqb_eq in Hc. rewrite Hc, Hb.
    destruct (meta_get (JObj d) "page") as [pg|e1] eqn:E1.
    - destruct (meta_get (JObj d) "total_pages") as [tp|e2] eqn:E2.
      + cbn [py_get]. rewrite P. exists IndexError.
        split; [reflexivity|]. split; [discriminate|reflexivity].
      + exists e2. split; [reflexivity|].
        rewrite (A _ _ E2). split; [discriminate|].
        intros (pg' & tp' & _ & [=]).
    - exists e1. split; [reflexivity|].
      rewrite (A _ _ E1). split; [discriminate|].
      intros (pg' & tp' & [=] & _). }
  destruct D as (e & D1 & D2 & D3).
  unfold main, export. rewrite prepare_answer. simpl. rewrite Hs, D1. simpl.
  exists e. eexists. split; [reflexivity|]. split; [exact D2|].
  destruct e; try (now destruct (D2 message));
    (split; [reflexivity|]); simpl; auto.
Qed.

Lemma contacts_request_page (self : Syncro) (customer_id : json)
    (d : pydict) (r : request) :
  d = [("customer_id", customer_id)] ->
  page_request self (base_url self ++ "/contacts") d r ->
  exists page, r = contacts_request self customer_id page.
Proof. intros -> [page ->]. now exists page. Qed.

(** C7. Header discovery makes exactly one page fetch, for page 1, whatever
    comes of it, and its result is the key list of the first record of that
    page alone: the records after it do not matter.  It does not advance the
    export: the request that follows it in a run, if any, is again for page
    1, sent by the fresh generator of the export pass; and there is such a
    request in every run that got as far as writing the header. *)
Theorem C7_header_discovery_is_a_peek (self : Syncro) (customer_id : json)
    (w : world St) :
  let peek := contacts_request self customer_id (JNum 1) in
  let discovery :=
    get_headers (all_contacts_next serve self) (all_contacts customer_id) w in
  only_sent w (snd discovery) [peek]
  /\ (forall resp data pg tp record others,
         fst (serve (server w) peek) = Answer resp ->
         status_code resp = 200 ->
         body resp = Some data ->
         meta_get data "page" = Ok pg ->
         meta_get data "total_pages" = Ok tp ->
         py_get data "contacts" (JList [])
         = Ok (JList (JObj record :: others)) ->
         fst discovery = Ok (dict_keys record))
  /\ (forall fuel args,
         let api := make_api args in
         exists rest,
           sent (snd (main serve fuel args w))
           = (sent w ++ contacts_request api JNull (JNum 1) :: rest)%list
           /\ (rest = [] \/
               exists tl,
                 rest = contacts_request api (opt_str (arg_customer_id args))
                          (JNum 1) :: tl))
  /\ (forall fuel args resp fieldnames,
         let api := make_api args in
         let cid := opt_str (arg_customer_id args) in
         fst (serve (server w) (contacts_request api JNull (JNum 1)))
         = Answer resp ->
         discover resp = Ok fieldnames ->
         can_open w = true ->
         can_encode w (map JStr fieldnames) = true ->
         exists tl,
           sent (snd (main serve (S fuel) args w))
           = (sent w ++ contacts_request api JNull (JNum 1)
                     :: contacts_request api cid (JNum 1) :: tl)%list
           /\ Forall (fun r => exists page,
                          r = contacts_request api cid page) tl).
Proof.
  intros peek discovery. unfold discovery. rewrite get_headers_answer.
  fold peek. split; [|split; [|split]].
  4:{ intros fuel args resp fieldnames Hs Hd Ho He.
      exact (main_second_request fuel args w resp fieldnames Hs Hd Ho He). }
  - unfold only_sent. simpl. auto 8.
  - intros resp data pg tp record others Hs Hc Hb Hp Ht Hg. simpl.
    rewrite Hs. unfold discover, response_json.
    apply Z.eqb_eq in Hc. now rewrite Hc, Hb, Hp, Ht, Hg.
  - intros fuel args.
    destruct (main_requests fuel args w) as (rest & H1 & _ & H3). eauto.
Qed.

(** C10. When [all_contacts] is given no customer id, every request it
    sends, however far the generator is driven, goes to [/contacts] with a
    payload of exactly two entries: [customer_id], present with the value
    null, and the injected [page].  So does every request of a run started
    without a customer id. *)
Theorem C10_customer_id_null_when_omitted (self : Syncro) (w : world St) :
  let shape (api : Syncro) (r : request) :=
    meth r = GET
    /\ url r = base_url api ++ "/contacts"
    /\ exists page, payload r = [("customer_id", JNull); ("page", page)] in
  (forall fuel,
      exists reqs,
        only_sent w
          (snd (drain fuel (all_contacts_next serve self) (all_contacts JNull)
                      w)) reqs
        /\ Forall (shape self) reqs)
  /\ (forall fuel args,
         arg_customer_id args = None ->
         exists reqs,
           sent (snd (main serve fuel args w)) = (sent w ++ reqs)%list
           /\ Forall (shape (make_api args)) reqs).
Proof.
  intros shape.
  assert (S : forall api page, shape api (contacts_request api JNull page)).
  { intros api page. unfold shape. simpl. eauto. }
  split.
  - intros fuel.
    destruct (drain_accesses self "/contacts" "contacts" _ fuel _ w
                (all_contacts_accesses self JNull)) as (reqs & H1 & H2).
    exists reqs. split; [exact H1|].
    eapply Forall_impl; [|exact H2]. intros r [page ->]. apply S.
  - intros fuel args Hn.
    destruct (main_requests fuel args w) as (rest & H1 & H2 & _).
    rewrite Hn in H2. simpl in H2.
    exists (contacts_request (make_api args) JNull (JNum 1) :: rest).
    split; [exact H1|]. constructor; [apply S|].
    eapply Forall_impl; [|exact H2]. intros r [page ->]. apply S.
Qed.

(** C6, as the code has it.  In a run given a customer id, header discovery
    comes first and asks for page 1 with [customer_id] null; every request
    after it (the whole export pass) goes to [/contacts] with that customer
    id unchanged next to the injected [page].  On every page request the
    paginator sends the supplied parameters with [page] set: every other key
    keeps its value, and the keys are the supplied ones, plus [page] when it
    was not among them. *)
Theorem C6_customer_id_on_export_pass (fuel : nat) (args : arguments)
    (cid : string) (w : world St) :
  arg_customer_id args = Some cid ->
  (exists first rest,
      sent (snd (main serve fuel args w)) = (sent w ++ first :: rest)%list
      /\ url first = base_url (make_api args) ++ "/contacts"
      /\ payload first = [("customer_id", JNull); ("page", JNum 1)]
      /\ Forall (fun r =>
                   url r = base_url (make_api args) ++ "/contacts"
                   /\ exists page,
                       payload r
                       = [("customer_id", JStr cid); ("page", page)]) rest)
  /\ (forall self url_prefix parameters n (w0 : world St),
         exists reqs,
           only_sent w0
             (snd (drain n (_get_all_next serve self)
                         (GetAllStart url_prefix parameters) w0)) reqs
           /\ Forall (fun r =>
                        url r = base_url self ++ url_prefix
                        /\ (exists page,
                               dict_get "page" (payload r) = Some page)
                        /\ (forall k, k <> "page" ->
                                      dict_get k (payload r)
                                      = dict_get k (supplied parameters))
                        /\ dict_keys (payload r)
                           = (if in_keys "page" (dict_keys (supplied parameters))
                              then dict_keys (supplied parameters)
                              else dict_keys (supplied parameters)
                                   ++ ["page"])%list) reqs).
Proof.
  intros Hc. split.
  - destruct (main_requests fuel args w) as (rest & H1 & H2 & _).
    rewrite Hc in H2. simpl in H2.
    exists (contacts_request (make_api args) JNull (JNum 1)), rest.
    split; [exact H1|]. split; [reflexivity|]. split; [reflexivity|].
    eapply Forall_impl; [|exact H2]. intros r [page ->]. simpl. eauto.
  - intros self url_prefix parameters n w0.
    destruct (drain_fetches self (base_url self ++ url_prefix)
                (supplied parameters) n
                (GetAllStart url_prefix parameters) w0)
      as (reqs & H1 & H2).
    { split; [reflexivity|]. apply with_page_supplied. }
    exists reqs. split; [exact H1|].
    eapply Forall_impl; [|exact H2]. intros r [page ->]. simpl.
    split; [reflexivity|]. split; [|split].
    + exists page. apply dict_get_set_same.
    + intros k Hk. now apply dict_get_set_other.
    + apply dict_keys_set.
Qed.

(** ** The paginator *)

Lemma page_of_with_page (self : Syncro) (u : string)
    (parameters : option pydict) (page : json) :
  page_of (mkRequest GET u (headers self) (with_page parameters page))
  = Some page.
Proof.
  unfold page_of. simpl. rewrite with_page_supplied. apply dict_get_set_same.
Qed.

(** From a frame suspended after page [q] of [N], the loop fetches the
    pages [q+1 .. N], one request each, and stops. *)
Lemma _get_all_loop (self : Syncro) (u : string) (N : Z) :
  paginated serve u N ->
  forall k q parameters (w : world St) fuel,
    Z.of_nat q + Z.of_nat k = Z.max (Z.of_nat q) N ->
    (1 <= q)%nat -> (k < fuel)%nat ->
    exists pages w' reqs,
      drain fuel (_get_all_next serve self)
            (GetAllYielded u parameters (JNum (Z.of_nat q)) (JNum N)) w
      = (Some (Ok pages), w')
      /\ map (fun data => meta_get data "page") pages
         = map (fun i => Ok (JNum (Z.of_nat i))) (seq (S q) k)
      /\ map (fun data => meta_get data "total_pages") pages
         = map (fun _ => Ok (JNum N)) (seq (S q) k)
      /\ only_sent w w' reqs
      /\ map page_of reqs
         = map (fun i => Some (JNum (Z.of_nat i))) (seq (S q) k).
Proof.
  intros Hserve. induction k as [|k IH]; intros q parameters w fuel Hk Hq Hf;
    (destruct fuel as [|fuel]; [lia|]); simpl.
  - replace (Z.of_nat q <? N) with false by (symmetry; apply Z.ltb_ge; lia).
    run. exists [], w, []. simpl. auto using only_sent_refl.
  - replace (Z.of_nat q <? N) with true by (symmetry; apply Z.ltb_lt; lia).
    run. simpl.
    set (req := mkRequest GET u (headers self)
                  (with_page parameters (JNum (Z.of_nat q + 1)))).
    destruct (Hserve (server w) req (Z.of_nat q + 1) eq_refl eq_refl
                (page_of_with_page _ _ _ _) ltac:(lia) ltac:(lia))
      as (resp & data & Hr & Hc & Hb & Hp & Ht).
    destruct (serve (server w) req) as [rep s'] eqn:Es. simpl in Hr. subst rep.
    rewrite (_get_page_ok self u parameters _ w resp s' data _ _
               Es Hc Hb Hp Ht).
    simpl. fold req.
    set (w1 := mkWorld _ _ _ _ _ _ _).
    replace (Z.of_nat q + 1) with (Z.of_nat (S q)) by lia.
    destruct (IH (S q) (if truthy parameters
                        then Some (with_page parameters (JNum (Z.of_nat q + 1)))
                        else parameters) w1 fuel)
      as (pages & w' & reqs & D & P1 & P2 & P3 & P4); try lia.
    replace (Z.of_nat (S q)) with (Z.of_nat q + 1) in D by lia.
    replace (Z.of_nat (S q)) with (Z.of_nat q + 1) by lia.
    rewrite D. exists (data :: pages), w', (req :: reqs).
    assert (Eq : Z.of_nat q + 1 = Z.of_nat (S q)) by lia.
    cbn [map seq]. rewrite Hp, Ht, P1, P2, P4, Eq.
    split; [reflexivity|]. split; [reflexivity|]. split; [reflexivity|].
    split.
    + apply (only_sent_trans w w1 w' [req] reqs); auto.
      unfold only_sent, w1. simpl. auto 8.
    + f_equal. unfold req. rewrite page_of_with_page. now rewrite Eq.
Qed.

(** C1. Against a server that answers every page request with a report of
    the requested page and of [total_pages = N], draining the paginator
    terminates and yields exactly [max 1 N] payloads, hence [N] of them
    when [N >= 1] and exactly one when [N <= 1]; they come from one request
    each, for the pages 1, 2, ... in this order, and the i-th payload is the
    report of page i.  When the first body has no [meta], or a [meta] with
    neither [page] nor [total_pages], both default to -1 and exactly one
    page is yielded, from one request. *)
Theorem C1_paginator_yields_all_pages (self : Syncro) (url_prefix : string)
    (parameters : option pydict) (w : world St) :
  let endpoint := base_url self ++ url_prefix in
  let pager fuel :=
    drain fuel (_get_all_next serve self)
          (GetAllStart url_prefix parameters) w in
  (forall N,
      paginated serve endpoint N ->
      let n := Z.to_nat (Z.max 1 N) in
      (1 <= N -> n = Z.to_nat N)
      /\ (N <= 1 -> n = 1%nat)
      /\ forall fuel, (n < fuel)%nat ->
           exists pages w' reqs,
             pager fuel = (Some (Ok pages), w')
             /\ List.length pages = n
             /\ map (fun data => meta_get data "page") pages
                = map Ok (page_numbers n)
             /\ only_sent w w' reqs
             /\ map page_of reqs = map Some (page_numbers n))
  /\ (forall resp d,
         let first :=
           mkRequest GET endpoint (headers self)
                     (with_page parameters (JNum 1)) in
         fst (serve (server w) first) = Answer resp ->
         status_code resp = 200 ->
         body resp = Some (JObj d) ->
         (dict_get "meta" d = None \/
          exists m, dict_get "meta" d = Some (JObj m)
                    /\ dict_get "page" m = None
                    /\ dict_get "total_pages" m = None) ->
         meta_get (JObj d) "page" = Ok (JNum (-1))
         /\ meta_get (JObj d) "total_pages" = Ok (JNum (-1))
         /\ forall fuel, (1 < fuel)%nat ->
              exists w', pager fuel = (Some (Ok [JObj d]), w')
                         /\ only_sent w w' [first]).
Proof.
  intros endpoint pager. split.
  - intros N Hserve n. split; [lia|]. split; [lia|].
    intros [|fuel] Hf; [lia|]. unfold pager.
    set (req := mkRequest GET endpoint (headers self)
                  (with_page parameters (JNum 1))).
    destruct (Hserve (server w) req 1 eq_refl eq_refl
                (page_of_with_page _ _ _ _) ltac:(lia) ltac:(lia))
      as (resp & data & Hr & Hc & Hb & Hp & Ht).
    destruct (serve (server w) req) as [rep s'] eqn:Es. simpl in Hr. subst rep.
    cbn [drain _get_all_next]. unfold bind at 1.
    fold endpoint.
    rewrite (_get_page_ok self endpoint parameters _ w resp s' data _ _
               Es Hc Hb Hp Ht).
    fold req. set (w1 := mkWorld _ _ _ _ _ _ _). unfold ret.
    destruct (_get_all_loop self endpoint N Hserve (Nat.pred n) 1
                (if truthy parameters
                 then Some (with_page parameters (JNum 1)) else parameters)
                w1 fuel)
      as (pages & w' & reqs & D & P1 & _ & P3 & P4); try lia.
    change (Z.of_nat 1) with 1 in D. rewrite D.
    exists (data :: pages), w', (req :: reqs).
    assert (L : List.length pages = Nat.pred n).
    { apply (f_equal (@List.length _)) in P1.
      now rewrite !length_map, length_seq in P1. }
    assert (Sn : n = S (Nat.pred n)) by lia.
    split; [reflexivity|]. split; [simpl; lia|].
    unfold page_numbers. rewrite !map_map, Sn.
    cbn [map seq]. rewrite Hp, P1, P4. unfold req at 2.
    rewrite page_of_with_page.
    split; [reflexivity|]. split; [|reflexivity].
    apply (only_sent_trans w w1 w' [req] reqs); auto.
    unfold only_sent, w1. simpl. auto 8.
  - intros resp d first Hs Hc Hb Hm.
    assert (Hp : meta_get (JObj d) "page" = Ok (JNum (-1))
                 /\ meta_get (JObj d) "total_pages" = Ok (JNum (-1))).
    { unfold meta_get. simpl.
      destruct Hm as [-> | (m & -> & Hp & Ht)]; simpl; auto.
      now rewrite Hp, Ht. }
    destruct Hp as [Hp Ht]. split; [exact Hp|]. split; [exact Ht|].
    intros [|[|fuel]] Hf; try lia. unfold pager.
    destruct (serve (server w) first) as [rep s'] eqn:Es. simpl in Hs.
    subst rep.
    cbn [drain _get_all_next]. unfold bind at 1. fold endpoint.
    rewrite (_get_page_ok self endpoint parameters _ w resp s' (JObj d) _ _
               Es Hc Hb Hp Ht).
    fold first. unfold ret. simpl. run. eexists. split; [reflexivity|].
    unfold only_sent. simpl. auto 8.
Qed.

(** ** The file written *)




End Properties.

(** * Further properties of the program *)

Section More.

Context {St : Type} (serve : St -> request -> reply * St).

Notation "x <- m ;; k" := (bind m (fun x => k))
  (at level 61, m at next level, right associativity).
Notation "' pat <- m ;; k" := (bind m (fun x => match x with pat => k end))
  (at level 61, pat pattern, m at next level, right associativity).

Ltac run := unfold bind, ret, raise, lift; cbv beta.

(** *** Accessors over the paginator *)

(** What [_get_page] returns as data is an object: [data.get] has worked. *)
Lemma _get_page_object (self : Syncro) (u : string)
    (parameters : option pydict) (page : json) (w : world St)
    (p' : option pydict) (data pg tp : json) :
  fst (_get_page serve self u parameters page w) = Ok (p', (data, pg, tp)) ->
  exists d, data = JObj d.
Proof.
  unfold _get_page. run.
  destruct (http serve _ w) as [[resp|e] w1]; simpl; [|discriminate].
  destruct (status_code resp =? 200); simpl; [|discriminate].
  destruct (response_json resp) as [data0|]; simpl; [|discriminate].
  destruct (meta_get data0 "page") eqn:E; simpl; [|discriminate].
  destruct (meta_get data0 "total_pages"); simpl; [|discriminate].
  intros [= _ <- _ _].
  destruct data0; try discriminate E. eauto.
Qed.

Lemma _get_all_next_object (self : Syncro) (g g' : get_all_frame)
    (w : world St) (data : json) :
  fst (_get_all_next serve self g w) = Ok (Yield data, g') ->
  exists d, data = JObj d.
Proof.
  destruct g as [url_prefix parameters|u parameters pg tp|]; simpl.
  - run.
    pose proof (_get_page_object self (base_url self ++ url_prefix)
                  parameters (JNum 1) w) as H.
    destruct (_get_page serve self _ parameters (JNum 1) w)
      as [[[p' [[data0 pg'] tp']]|e] w1]; simpl in *; [|discriminate].
    intros [= <- _]. eauto.
  - destruct (py_lt pg tp) as [[|]|]; run; try discriminate.
    destruct (py_succ pg) as [next_page|e]; simpl; [|discriminate].
    pose proof (_get_page_object self u parameters next_page w) as H.
    destruct (_get_page serve self u parameters next_page w)
      as [[[p' [[data0 pg'] tp']]|e] w1]; simpl in *; [|discriminate].
    intros [= <- _]. eauto.
  - run. discriminate.
Qed.

(** One step of an accessor is one step of the paginator under it. *)
Lemma accessor_next_step (self : Syncro) (url_prefix key : string)
    (g : accessor_frame) (w : world St) :
  accessor_next serve self url_prefix key g w
  = match _get_all_next serve self (pages_of url_prefix g) w with
    | (Ok (Yield page, pages), w') =>
        (Ok (Yield (collection_of key page), AccessorLoop pages), w')
    | (Ok (Stop, _), w') => (Ok (Stop, AccessorReturned), w')
    | (Raise e, w') => (Raise e, w')
    end.
Proof.
  destruct (match g with AccessorReturned => true | _ => false end) eqn:Hg.
  { destruct g; try discriminate. reflexivity. }
  assert (E : accessor_next serve self url_prefix key g w
              = ('(item, pages) <- _get_all_next serve self
                                     (pages_of url_prefix g) ;;
                 match item with
                 | Stop => ret (Stop, AccessorReturned)
                 | Yield page =>
                     collection <- lift (py_get page key (JList [])) ;;
                     ret (Yield collection, AccessorLoop pages)
                 end) w)
    by (destruct g; [reflexivity|reflexivity|discriminate]).
  rewrite E. run.
  pose proof (fun g' data =>
                _get_all_next_object self (pages_of url_prefix g) g' w data)
    as O.
  destruct (_get_all_next serve self (pages_of url_prefix g) w)
    as [[[[page|] pages]|e] w1]; simpl; auto.
  destruct (O pages page eq_refl) as [d ->]. reflexivity.
Qed.

(** X2. Draining an accessor ([all_contacts], [all_customers]) is draining
    the paginator under it and taking [page.get(key, [])] of every page:
    same requests, same final world, same failure if any, and item for item
    the named collection of the page, the empty list where the key is
    absent. *)
Theorem X2_accessor_maps_pages (self : Syncro) (url_prefix key : string)
    (fuel : nat) (g : accessor_frame) (w : world St) :
  drain fuel (accessor_next serve self url_prefix key) g w
  = (map_items (collection_of key)
       (fst (drain fuel (_get_all_next serve self) (pages_of url_prefix g) w)),
     snd (drain fuel (_get_all_next serve self) (pages_of url_prefix g) w)).
Proof.
  revert g w. induction fuel as [|fuel IH]; intros g w; [reflexivity|].
  cbn [drain]. rewrite accessor_next_step.
  destruct (_get_all_next serve self (pages_of url_prefix g) w)
    as [[[[page|] pages]|e] w1]; simpl; auto.
  rewrite (IH (AccessorLoop pages) w1). simpl.
  now destruct (drain fuel (_get_all_next serve self) pages w1)
    as [[[xs|e]|] w2].
Qed.

(** *** Header discovery on any generator *)

(** X7. [get_headers] advances the generator it is given by exactly one
    item and does nothing else to the world; it succeeds exactly when that
    item is a list whose first element is an object, and then returns that
    object's keys in order.  An exhausted generator gives [StopIteration],
    an empty list [IndexError]. *)
Theorem X7_get_headers_one_item {G : Type} (next : G -> M (step json * G))
    (g : G) (w : world St) :
  snd (get_headers next g w) = snd (next g w)
  /\ (forall keys,
         fst (get_headers next g w) = Ok keys <->
         exists first others g',
           fst (next g w) = Ok (Yield (JList (JObj first :: others)), g')
           /\ keys = dict_keys first)
  /\ (forall g', fst (next g w) = Ok (Stop, g') ->
                 fst (get_headers next g w) = Raise StopIteration)
  /\ (forall g', fst (next g w) = Ok (Yield (JList []), g') ->
                 fst (get_headers next g w) = Raise IndexError)
  /\ (forall e, fst (next g w) = Raise e ->
                fst (get_headers next g w) = Raise e).
Proof.
  unfold get_headers. run.
  destruct (next g w) as [[[[page|] g1]|e] w1]; simpl.
  - split.
    { destruct (py_index0 page) as [data|]; reflexivity. }
    split; [|split; [discriminate|split; [|discriminate]]].
    + intros keys. split.
      * destruct page as [| | |s|[|record others]|]; simpl; try discriminate.
        { destruct s; discriminate. }
        destruct record as [| | | | |first]; simpl; try discriminate.
        intros [= <-]. eauto.
      * intros (first & others & g' & [= -> _] & ->). reflexivity.
    + now intros g' [= -> _].
  - split; [reflexivity|].
    split; [|split; [reflexivity|split; discriminate]].
    intros keys. split; [discriminate|].
    intros (first & others & g' & [=] & _).
  - split; [reflexivity|].
    split; [|split; [discriminate|split; [discriminate|]]].
    + intros keys. split; [discriminate|].
      intros (first & others & g' & [=] & _).
    + now intros e' [= ->].
Qed.

(** *** The caller's dict *)

(** X8. A successful [_get_page] writes into a non-empty dict passed as
    [parameters]: afterwards the caller's dict holds [page] with the page
    just requested, every other key as before, and fetching again through
    it sends what a fetch through the original would.  With no dict, or an
    empty one, the caller's binding is left alone. *)
Theorem X8_get_page_writes_into_parameters (self : Syncro) (u : string)
    (parameters : option pydict) (page : json) (w : world St)
    (parameters' : option pydict) (x : json * json * json) :
  fst (_get_page serve self u parameters page w) = Ok (parameters', x) ->
  (truthy parameters = false -> parameters' = parameters)
  /\ (truthy parameters = true ->
      exists d', parameters' = Some d'
                 /\ dict_get "page" d' = Some page
                 /\ (forall k, k <> "page" ->
                               dict_get k d' = dict_get k (supplied parameters))
                 /\ dict_keys d'
                    = (if in_keys "page" (dict_keys (supplied parameters))
                       then dict_keys (supplied parameters)
                       else dict_keys (supplied parameters) ++ ["page"])%list)
  /\ (forall page',
         with_page parameters' page' = with_page parameters page').
Proof.
  intros H. apply _get_page_parameters in H. subst parameters'.
  split; [|split].
  - now intros ->.
  - intros T. rewrite T. exists (with_page parameters page).
    rewrite with_page_supplied. split; [reflexivity|].
    split; [apply dict_get_set_same|].
    split; [|apply dict_keys_set].
    intros k Hk. now apply dict_get_set_other.
  - intros page'. apply with_page_again.
Qed.

(** *** The body of a new contact *)

Lemma NoDup_filter {A} (f : A -> bool) (l : list A) :
  NoDup l -> NoDup (filter f l).
Proof.
  induction 1 as [|a l Ha Hl IH]; simpl; [constructor|].
  destruct (f a); auto. constructor; auto.
  intros H. apply filter_In in H. tauto.
Qed.

Lemma create_contact_sent (self : Syncro) (kwargs : pydict) (w : world St) :
  only_sent w (snd (create_contact serve self kwargs w))
    [mkRequest POST (base_url self ++ "/contacts") (headers self)
       (filter (fun kv => in_keys (fst kv) contact_fields) kwargs)].
Proof.
  unfold create_contact. run.
  pose proof (http_sent serve
                (mkRequest POST (base_url self ++ "/contacts") (headers self)
                   (filter (fun kv => in_keys (fst kv) contact_fields) kwargs))
                w) as H.
  destruct (http serve _ w) as [[resp|e] w1]; simpl in *; auto.
  destruct (status_code resp =? 200); simpl; exact H.
Qed.

(** X9. For keyword arguments (a dict, so no key twice) the body of the
    POST has at most eleven entries, one per allowed field at most; when
    every key given is an allowed field the body is the input unchanged. *)
Theorem X9_create_contact_body_bound (self : Syncro) (kwargs : pydict)
    (w : world St) :
  NoDup (dict_keys kwargs) ->
  exists req,
    only_sent w (snd (create_contact serve self kwargs w)) [req]
    /\ (List.length (payload req) <= 11)%nat
    /\ NoDup (dict_keys (payload req))
    /\ (Forall (fun k => In k contact_fields) (dict_keys kwargs) ->
        payload req = kwargs).
Proof.
  intros Hk. eexists. split; [apply create_contact_sent|].
  cbn [payload].
  set (keep := fun k => in_keys k contact_fields).
  assert (K : dict_keys (filter (fun kv => keep (fst kv)) kwargs)
              = filter keep (dict_keys kwargs))
    by apply dict_keys_filter.
  assert (N : NoDup (dict_keys (filter (fun kv => keep (fst kv)) kwargs)))
    by (rewrite K; now apply NoDup_filter).
  split; [|split; [exact N|]].
  - assert (L : (List.length (dict_keys (filter (fun kv => keep (fst kv))
                                               kwargs))
                 <= List.length contact_fields)%nat).
    { apply NoDup_incl_length; [exact N|].
      intros k Hin. rewrite K in Hin. apply filter_In in Hin as [_ Hin].
      now apply in_keys_In in Hin. }
    unfold dict_keys in L. rewrite length_map in L. exact L.
  - subst keep. clear. cbv beta.
    induction kwargs as [|[k v] d IH]; intros Hd; [reflexivity|].
    change (Forall (fun k => In k contact_fields) (k :: dict_keys d)) in Hd.
    inversion Hd as [|? ? Hk' Hd']; subst.
    cbn [filter fst].
    rewrite (proj2 (in_keys_In k contact_fields) Hk'). f_equal. auto.
Qed.

(** *** What is sent, and how *)

(** X1. Every request of a run is a GET on the contacts endpoint of the
    tenant's API, [https://{subdomain}.syncromsp.com/api/v1/contacts], and
    carries the two headers set up by the constructor: the API key as
    [Authorization] and [Accept: application/json].  So does every page
    request of a client built from any base URL and key, and the POST of
    [create_contact]. *)
Theorem X1_requests_are_authenticated (fuel : nat) (args : arguments)
    (w : world St) :
  (exists reqs,
      sent (snd (main serve fuel args w)) = (sent w ++ reqs)%list
      /\ Forall (fun r =>
                   meth r = GET
                   /\ url r = ("https://" ++ arg_subdomain args
                                ++ ".syncromsp.com/api/v1") ++ "/contacts"
                   /\ req_headers r
                      = [("Authorization", arg_api_key args);
                         ("Accept", "application/json")]) reqs)
  /\ (forall base key url_prefix parameters n (w0 : world St),
         exists reqs,
           only_sent w0
             (snd (drain n (_get_all_next serve (Syncro_init base key))
                         (GetAllStart url_prefix parameters) w0)) reqs
           /\ Forall (fun r =>
                        meth r = GET
                        /\ url r = base ++ url_prefix
                        /\ req_headers r
                           = [("Authorization", key);
                              ("Accept", "application/json")]) reqs)
  /\ (forall base key kwargs (w0 : world St),
         exists req,
           only_sent w0
             (snd (create_contact serve (Syncro_init base key) kwargs w0))
             [req]
           /\ meth req = POST
           /\ url req = base ++ "/contacts"
           /\ req_headers req
              = [("Authorization", key); ("Accept", "application/json")]).
Proof.
  split; [|split].
  - destruct (main_requests serve fuel args w) as (rest & H1 & H2 & _).
    exists (contacts_request (make_api args) JNull (JNum 1) :: rest).
    split; [exact H1|]. constructor.
    + repeat split.
    + eapply Forall_impl; [|exact H2]. intros r [page ->]. repeat split.
  - intros base key url_prefix parameters n w0.
    destruct (drain_fetches serve (Syncro_init base key) (base ++ url_prefix)
                (supplied parameters) n
                (GetAllStart url_prefix parameters) w0)
      as (reqs & H1 & H2).
    { split; [reflexivity|]. apply with_page_supplied. }
    exists reqs. split; [exact H1|].
    eapply Forall_impl; [|exact H2]. intros r [page ->]. repeat split.
  - intros base key kwargs w0. eexists.
    split; [apply create_contact_sent|]. repeat split.
Qed.

(** *** Pagination that does not end, or ends badly *)

Lemma stuck_loop (self : Syncro) (u : string) (p N : Z) :
  stuck serve u p N -> p < N ->
  forall fuel parameters (w : world St),
    fst (drain fuel (_get_all_next serve self)
               (GetAllYielded u parameters (JNum p) (JNum N)) w) = None
    /\ exists reqs,
        only_sent w
          (snd (drain fuel (_get_all_next serve self)
                      (GetAllYielded u parameters (JNum p) (JNum N)) w)) reqs
        /\ List.length reqs = fuel
        /\ Forall (fun r => page_of r = Some (JNum (p + 1))) reqs.
Proof.
  intros Hs Hlt. induction fuel as [|fuel IH]; intros parameters w.
  - simpl. split; [reflexivity|]. exists []. auto using only_sent_refl.
  - set (req := mkRequest GET u (headers self)
                  (with_page parameters (JNum (p + 1)))).
    destruct (Hs (server w) req eq_refl eq_refl)
      as (resp & data & Hr & Hc & Hb & Hp & Ht).
    destruct (serve (server w) req) as [rep s'] eqn:Es. simpl in Hr. subst rep.
    pose proof (_get_page_ok serve self u parameters _ w resp s' data _ _
                  Es Hc Hb Hp Ht) as G.
    fold req in G. set (w1 := mkWorld _ _ _ _ _ _ _) in G.
    set (parameters' := if truthy parameters
                        then Some (with_page parameters (JNum (p + 1)))
                        else parameters) in G.
    assert (N1 : _get_all_next serve self
                   (GetAllYielded u parameters (JNum p) (JNum N)) w
                 = (Ok (Yield data,
                        GetAllYielded u parameters' (JNum p) (JNum N)), w1)).
    { cbn [_get_all_next py_lt as_int].
      replace (p <? N) with true by (symmetry; apply Z.ltb_lt; lia).
      unfold py_succ, as_int, lift, bind. rewrite G. reflexivity. }
    cbn [drain]. rewrite N1.
    destruct (IH parameters' w1) as (D & reqs & S1 & L & F).
    destruct (drain fuel _ _ w1) as [[[xs|e]|] w2]; simpl in D;
      try discriminate.
    split; [reflexivity|]. exists (req :: reqs). simpl in *.
    split; [|split; [now rewrite L|]].
    + apply (only_sent_trans w w1 w2 [req] reqs); auto.
      unfold only_sent, w1. simpl. auto 8.
    + constructor; auto. unfold req. apply page_of_with_page.
Qed.

(** X3. The paginator asks for the page after the one the server reports,
    not after the one it asked for.  Against a server stuck at page [p] of
    [N] with [p < N] it never ends: whatever the fuel, draining it is still
    running when the fuel is out, one request has been sent per step, and
    every request after the first asks for page [p + 1]. *)
Theorem X3_stuck_server_never_ends (self : Syncro) (url_prefix : string)
    (parameters : option pydict) (p N : Z) (fuel : nat) (w : world St) :
  stuck serve (base_url self ++ url_prefix) p N ->
  p < N ->
  let run := drain fuel (_get_all_next serve self)
                   (GetAllStart url_prefix parameters) w in
  fst run = None
  /\ exists reqs,
      only_sent w (snd run) reqs
      /\ List.length reqs = fuel
      /\ Forall (fun r => page_of r = Some (JNum (p + 1))) (tl reqs).
Proof.
  intros Hs Hlt. destruct fuel as [|fuel]; intros run; unfold run.
  - simpl. split; [reflexivity|]. exists []. auto using only_sent_refl.
  - set (u := base_url self ++ url_prefix).
    set (req := mkRequest GET u (headers self)
                  (with_page parameters (JNum 1))).
    destruct (Hs (server w) req eq_refl eq_refl)
      as (resp & data & Hr & Hc & Hb & Hp & Ht).
    destruct (serve (server w) req) as [rep s'] eqn:Es. simpl in Hr. subst rep.
    pose proof (_get_page_ok serve self u parameters _ w resp s' data _ _
                  Es Hc Hb Hp Ht) as G.
    fold req in G. set (w1 := mkWorld _ _ _ _ _ _ _) in G.
    set (parameters' := if truthy parameters
                        then Some (with_page parameters (JNum 1))
                        else parameters) in G.
    assert (N1 : _get_all_next serve self
                   (GetAllStart url_prefix parameters) w
                 = (Ok (Yield data,
                        GetAllYielded u parameters' (JNum p) (JNum N)), w1)).
    { cbn [_get_all_next]. fold u. unfold bind. rewrite G. reflexivity. }
    cbn [drain]. rewrite N1.
    destruct (stuck_loop self u p N Hs Hlt fuel parameters' w1)
      as (D & reqs & S1 & L & F).
    destruct (drain fuel _ _ w1) as [[[xs|e]|] w2]; simpl in D;
      try discriminate.
    split; [reflexivity|]. exists (req :: reqs). simpl in *.
    split; [|split; [now rewrite L|exact F]].
    apply (only_sent_trans w w1 w2 [req] reqs); auto.
    unfold only_sent, w1. simpl. auto 8.
Qed.

(** X4. Pagination data that cannot be compared (a null, or a number
    against a text), or that compares but is no number, is noticed only
    after the first page: the first [next] yields that page, the second
    raises [TypeError] without sending anything more. *)
Theorem X4_unordered_pagination_data (self : Syncro) (url_prefix : string)
    (parameters : option pydict) (w : world St)
    (resp : response) (data pg tp : json) :
  let first :=
    mkRequest GET (base_url self ++ url_prefix) (headers self)
              (with_page parameters (JNum 1)) in
  fst (serve (server w) first) = Answer resp ->
  status_code resp = 200 ->
  body resp = Some data ->
  meta_get data "page" = Ok pg ->
  meta_get data "total_pages" = Ok tp ->
  py_lt pg tp = None \/ (py_lt pg tp = Some true /\ as_int pg = None) ->
  exists g1 w1,
    _get_all_next serve self (GetAllStart url_prefix parameters) w
    = (Ok (Yield data, g1), w1)
    /\ only_sent w w1 [first]
    /\ _get_all_next serve self g1 w1 = (Raise TypeError, w1)
    /\ forall fuel, (2 <= fuel)%nat ->
          drain fuel (_get_all_next serve self)
                (GetAllStart url_prefix parameters) w
          = (Some (Raise TypeError), w1).
Proof.
  intros first Hs Hc Hb Hp Ht Hlt.
  destruct (serve (server w) first) as [rep s'] eqn:Es. simpl in Hs. subst rep.
  pose proof (_get_page_ok serve self (base_url self ++ url_prefix)
                parameters (JNum 1) w resp s' data pg tp Es Hc Hb Hp Ht) as G.
  fold first in G.
  assert (N1 : _get_all_next serve self (GetAllStart url_prefix parameters) w
               = (Ok (Yield data,
                      GetAllYielded (base_url self ++ url_prefix)
                        (if truthy parameters
                         then Some (with_page parameters (JNum 1))
                         else parameters) pg tp),
                  mkWorld s' (sent w ++ [first]) (logged w) (printed w)
                          (outfile w) (can_open w) (can_encode w))).
  { cbn [_get_all_next]. unfold bind. rewrite G. reflexivity. }
  set (g1 := GetAllYielded _ _ pg tp) in N1.
  set (w1 := mkWorld _ _ _ _ _ _ _) in N1.
  assert (N2 : _get_all_next serve self g1 w1 = (Raise TypeError, w1)).
  { unfold g1. cbn [_get_all_next].
    destruct Hlt as [-> | [-> Hi]]; [reflexivity|].
    unfold py_succ. rewrite Hi. reflexivity. }
  exists g1, w1. split; [exact N1|]. split.
  { unfold only_sent, w1. simpl. auto 8. }
  split; [exact N2|].
  intros [|[|fuel]] Hf; try lia.
  cbn [drain]. rewrite N1. cbn [drain]. now rewrite N2.
Qed.

(** *** What a run reports *)

(** X10. The line [Contacts saved to <outfile>] is printed exactly by the
    runs that exit with code 0, once, and those log nothing but the
    announcement of the download; a run that exits with code 1 prints
    nothing and logs exactly one error, after the announcement if header
    discovery had succeeded. *)
Theorem X10_success_message (fuel : nat) (args : arguments) (w : world St) :
  let run := main serve fuel args w in
  let saved := "Contacts saved to " ++ arg_outfile args in
  (fst run = Some 0 ->
   printed (snd run) = (printed w ++ [saved])%list
   /\ logged (snd run) = (logged w ++ [announcement args])%list)
  /\ (fst run <> Some 0 -> printed (snd run) = printed w)
  /\ (fst run = Some 1 ->
      exists e,
        let entry := match e with
                     | APIError _ => ErrorLoadingContacts e
                     | _ => ErrorUnknown e
                     end in
        logged (snd run) = (logged w ++ [entry])%list
        \/ logged (snd run) = (logged w ++ [announcement args; entry])%list).
Proof.
  intros run saved. unfold run. rewrite main_of_export. unfold export.
  rewrite prepare_answer. cbv zeta.
  destruct (fst (serve (server w) _)) as [resp|].
  2:{ simpl. split; [discriminate|]. split; [reflexivity|].
      intros _. exists RequestException. now left. }
  destruct (discover resp) as [fieldnames|e].
  2:{ simpl. split; [discriminate|]. split; [reflexivity|].
      intros _. exists e. now left. }
  destruct (can_open w).
  2:{ simpl. split; [discriminate|]. split; [reflexivity|].
      intros _. exists OSError. right. now rewrite <- app_assoc. }
  destruct (can_encode w (map JStr fieldnames)).
  2:{ simpl. split; [discriminate|]. split; [reflexivity|].
      intros _. exists UnicodeEncodeError. right. now rewrite <- app_assoc. }
  set (w1 := mkWorld _ _ _ _ _ _ _).
  destruct (export_pages_trace serve (make_api args) fieldnames _ fuel
              (all_contacts (opt_str (arg_customer_id args))) w1
              [map JStr fieldnames]
              (all_contacts_accesses (make_api args) _) eq_refl)
    as (reqs & more & _ & _ & T3 & T4 & _).
  cbv zeta in T3, T4.
  destruct (export_pages serve fuel _ fieldnames _ w1) as [[[[]|e]|] w2];
    simpl in *.
  - split; [|split; [congruence|discriminate]].
    intros _. rewrite T3, T4. auto.
  - split; [discriminate|]. split; [intros _; exact T4|].
    intros _. exists e. right. rewrite T3. now rewrite <- app_assoc.
  - split; [discriminate|]. split; [intros _; exact T4|]. discriminate.
Qed.

(** X11. Before the export pass, everything that is not a non-200 answer
    goes to the generic handler: no answer at all, a 200 whose body is not
    JSON, a 200 whose body is JSON but no object, and an output file that
    cannot be opened.  Each time the run has sent the one header-discovery
    request, logs one unknown error, exits with code 1 and leaves the file
    as it was. *)
Theorem X11_failures_before_the_export (fuel : nat) (args : arguments)
    (w : world St) :
  let peek := contacts_request (make_api args) JNull (JNum 1) in
  let fails_with e announced :=
    exists w',
      main serve fuel args w = (Some 1, w')
      /\ sent w' = (sent w ++ [peek])%list
      /\ logged w' = (logged w ++ announced ++ [ErrorUnknown e])%list
      /\ printed w' = printed w
      /\ outfile w' = outfile w in
  (fst (serve (server w) peek) = NoAnswer ->
   fails_with RequestException [])
  /\ (forall resp,
         fst (serve (server w) peek) = Answer resp ->
         status_code resp = 200 ->
         (body resp = None -> fails_with JSONDecodeError [])
         /\ (forall data,
                body resp = Some data ->
                (forall d, data <> JObj d) ->
                fails_with AttributeError [])
         /\ (forall fieldnames,
                discover resp = Ok fieldnames ->
                can_open w = false ->
                fails_with OSError [announcement args])).
Proof.
  intros peek fails_with. unfold fails_with.
  split; [|intros resp Hs Hc; split; [|split]].
  - intros Hs. rewrite main_of_export. unfold export.
    rewrite prepare_answer. cbv zeta. fold peek. rewrite Hs.
    eexists. split; [reflexivity|]. simpl. auto.
  - intros Hb. rewrite main_of_export. unfold export.
    rewrite prepare_answer. cbv zeta. fold peek. rewrite Hs.
    unfold discover, response_json. apply Z.eqb_eq in Hc. rewrite Hc, Hb.
    eexists. split; [reflexivity|]. simpl. auto.
  - intros data Hb Hd. rewrite main_of_export. unfold export.
    rewrite prepare_answer. cbv zeta. fold peek. rewrite Hs.
    unfold discover, response_json. apply Z.eqb_eq in Hc. rewrite Hc, Hb.
    assert (E : meta_get data "page" = Raise AttributeError).
    { destruct data as [| | | | |d]; try reflexivity.
      now destruct (Hd d). }
    rewrite E. eexists. split; [reflexivity|]. simpl. auto.
  - intros fieldnames Hd Ho. rewrite main_of_export. unfold export.
    rewrite prepare_answer. cbv zeta. fold peek. rewrite Hs, Hd, Ho.
    eexists. split; [reflexivity|]. simpl. rewrite <- app_assoc. auto.
Qed.

(** X12. An empty customer id counts as none for the announcement but not
    for the filter: given [-c] with an empty text, a run announces the
    download of all contacts (it never names a customer in the log), yet
    every request of its export pass carries [customer_id] as the empty
    text. *)
Theorem X12_empty_customer_id (fuel : nat) (args : arguments) (w : world St) :
  arg_customer_id args = Some "" ->
  (exists rest,
      sent (snd (main serve fuel args w))
      = (sent w ++ contacts_request (make_api args) JNull (JNum 1) :: rest)%list
      /\ Forall (fun r => dict_get "customer_id" (payload r)
                          = Some (JStr "")) rest)
  /\ (exists entries,
         logged (snd (main serve fuel args w)) = (logged w ++ entries)%list
         /\ Forall (fun entry =>
                      forall c, entry <> InfoDownloadingCustomer c) entries
         /\ (forall fieldnames resp,
                fst (serve (server w)
                           (contacts_request (make_api args) JNull (JNum 1)))
                = Answer resp ->
                discover resp = Ok fieldnames ->
                In InfoDownloadingAll entries)).
Proof.
  intros Hc. split.
  - destruct (main_requests serve fuel args w) as (rest & H1 & H2 & _).
    rewrite Hc in H2. exists rest. split; [exact H1|].
    eapply Forall_impl; [|exact H2]. now intros r [page ->].
  - assert (A : announcement args = InfoDownloadingAll)
      by (unfold announcement; now rewrite Hc).
    rewrite main_of_export. unfold export. rewrite prepare_answer. cbv zeta.
    rewrite A.
    destruct (fst (serve (server w) _)) as [resp|].
    2:{ simpl. eexists. split; [reflexivity|].
        split; [repeat constructor; discriminate|]. discriminate. }
    destruct (discover resp) as [fieldnames|e] eqn:D.
    2:{ simpl. eexists. split; [reflexivity|].
        split; [|intros f r [= <-]; rewrite D; discriminate].
        constructor; [|constructor]. destruct e; discriminate. }
    destruct (can_open w).
    2:{ simpl. eexists. split; [now rewrite <- app_assoc|].
        split; [repeat constructor; discriminate|].
        intros _ _ _ _. now left. }
    destruct (can_encode w (map JStr fieldnames)).
    2:{ simpl. eexists. split; [now rewrite <- app_assoc|].
        split; [repeat constructor; discriminate|].
        intros _ _ _ _. now left. }
    set (w1 := mkWorld _ _ _ _ _ _ _).
    destruct (export_pages_trace serve (make_api args) fieldnames _ fuel
                (all_contacts (opt_str (arg_customer_id args))) w1
                [map JStr fieldnames]
                (all_contacts_accesses (make_api args) _) eq_refl)
      as (reqs & more & _ & _ & T3 & _).
    cbv zeta in T3.
    destruct (export_pages serve fuel _ fieldnames _ w1) as [[[[]|e]|] w2];
      simpl in *; rewrite T3.
    + exists [InfoDownloadingAll]. split; [reflexivity|].
      split; [repeat constructor; discriminate|]. intros _ _ _ _. now left.
    + eexists. split; [now rewrite <- app_assoc|].
      split; [|intros _ _ _ _; now left].
      constructor; [discriminate|]. constructor; [|constructor].
      destruct e; discriminate.
    + exists [InfoDownloadingAll]. split; [reflexivity|].
      split; [repeat constructor; discriminate|]. intros _ _ _ _. now left.
Qed.

(** *** What can be in the file *)

Lemma fits_forallb (fieldnames : list string) (record : pydict) :
  forallb (fun k => in_keys k fieldnames) (dict_keys record) = true
  <-> fits fieldnames record.
Proof.
  rewrite forallb_forall. unfold fits.
  split; intros H k Hk; apply in_keys_In; auto.
Qed.

Lemma _dict_to_list_cases (fieldnames : list string) (item : json) :
  (exists record, item = JObj record /\ fits fieldnames record
                  /\ _dict_to_list fieldnames item
                     = Ok (row_for fieldnames record))
  \/ ((forall record, item = JObj record -> ~ fits fieldnames record)
      /\ _dict_to_list fieldnames item = Raise (writer_error item)).
Proof.
  destruct item as [| | | | |record];
    try (right; split; [discriminate|reflexivity]).
  simpl.
  destruct (forallb _ (dict_keys record)) eqn:E.
  - left. exists record. apply fits_forallb in E. auto.
  - right. split; [|reflexivity].
    intros r [= <-] F. apply fits_forallb in F. congruence.
Qed.

(** The writer puts down a row for each record up to the first item it
    cannot write, and fails there: at an item that is no record of the
    header's columns, or at a row the file cannot encode. *)
Lemma write_each_written (fieldnames : list string) (items : list json)
    (w : world St) (rows : list row) :
  outfile w = Written rows ->
  exists records rest,
    items = (map JObj records ++ rest)%list
    /\ Forall (writable w fieldnames) records
    /\ snd (write_each fieldnames items w)
       = with_outfile (Written (rows ++ map (row_for fieldnames) records)) w
    /\ match rest with
       | [] => fst (write_each fieldnames items w) = Ok tt
       | bad :: _ =>
           ((forall record, bad = JObj record -> ~ fits fieldnames record)
            /\ fst (write_each fieldnames items w) = Raise (writer_error bad))
           \/ (exists record,
                  bad = JObj record
                  /\ fits fieldnames record
                  /\ can_encode w (row_for fieldnames record) = false
                  /\ fst (write_each fieldnames items w)
                     = Raise UnicodeEncodeError)
       end.
Proof.
  revert w rows. induction items as [|item items IH]; intros w rows Hw.
  - exists [], []. simpl. rewrite app_nil_r. repeat split; auto.
    destruct w; simpl in *. unfold with_outfile. simpl. now rewrite Hw.
  - cbn [write_each]. run.
    destruct (_dict_to_list_cases fieldnames item)
      as [(record & -> & F & E) | (B & E)]; rewrite E; simpl.
    + unfold write_row.
      destruct (can_encode w (row_for fieldnames record)) eqn:Hc; simpl.
      * rewrite Hw. simpl. set (w1 := mkWorld _ _ _ _ _ _ _).
        destruct (IH w1 (rows ++ [row_for fieldnames record])%list eq_refl)
          as (records & rest & -> & Fs & S1 & R).
        exists (record :: records), rest.
        split; [reflexivity|]. split; [constructor; [split|]; auto|].
        destruct (write_each fieldnames (map JObj records ++ rest) w1)
          as [r w2]; simpl in *.
        split; [|exact R].
        rewrite S1. unfold with_outfile, w1. simpl. now rewrite <- app_assoc.
      * exists [], (JObj record :: items). simpl. rewrite app_nil_r.
        split; [reflexivity|]. split; [constructor|].
        split; [|right; exists record; auto].
        destruct w; simpl in *. unfold with_outfile. simpl. now rewrite Hw.
    + exists [], (item :: items). simpl. rewrite app_nil_r.
      split; [reflexivity|]. split; [constructor|]. split; [|left; auto].
      destruct w; simpl in *. unfold with_outfile. simpl. now rewrite Hw.
Qed.

Lemma export_pages_written (self : Syncro) (fieldnames : list string)
    (d : pydict) :
  forall fuel g (w : world St) rows,
    accesses self "/contacts" d g ->
    outfile w = Written rows ->
    exists records,
      outfile (snd (export_pages serve fuel self fieldnames g w))
      = Written (rows ++ map (row_for fieldnames) records)
      /\ Forall (writable w fieldnames) records.
Proof.
  induction fuel as [|fuel IH]; intros g w rows Hg Hw.
  - exists []. simpl. now rewrite app_nil_r.
  - rewrite export_pages_S.
    destruct (accessor_next_accesses serve self "/contacts" "contacts" d g w
                Hg) as (reqs & (_ & _ & _ & O & _ & C) & _ & _ & H4).
    unfold all_contacts_next.
    destruct (accessor_next serve self "/contacts" "contacts" g w)
      as [[[[page|] g']|e] w1]; simpl in O, C, H4.
    + assert (Hw1 : outfile w1 = Written rows) by congruence.
      unfold writerows. run.
      destruct (py_iter page) as [items|e]; simpl.
      * destruct (write_each_written fieldnames items w1 rows Hw1)
          as (records & rest & _ & F & S1 & _).
        unfold writable in F. rewrite C in F.
        destruct (write_each fieldnames items w1) as [[[]|e] w2];
          simpl in S1; subst w2.
        -- destruct (IH g' (with_outfile (Written (rows ++ map (row_for fieldnames)
                                                         records)) w1)
                        (rows ++ map (row_for fieldnames) records)%list
                        (H4 _ _ eq_refl) eq_refl)
             as (records' & E & F').
           unfold writable in F'. cbn [with_outfile can_encode] in F'.
           rewrite C in F'.
           exists (records ++ records')%list.
           rewrite E, map_app, app_assoc. split; [reflexivity|].
           apply Forall_app. auto.
        -- exists records. simpl. auto.
      * exists []. simpl. now rewrite app_nil_r.
    + exists []. simpl. now rewrite app_nil_r, O.
    + exists []. simpl. now rewrite app_nil_r, O.
Qed.

Lemma row_for_length (fieldnames : list string) (record : pydict) :
  List.length (row_for fieldnames record) = List.length fieldnames.
Proof. unfold row_for. apply length_map. Qed.

(** X5. Whatever happens in a run, the output file is either as it was
    (the run failed before opening it), or empty (it was opened and the
    header could not be encoded), or holds a header row followed by rows
    made of records all of whose keys are columns of the header; every row,
    the header included, has as many cells as the header has columns, and
    is a row the file can encode. *)
Theorem X5_file_is_rectangular (fuel : nat) (args : arguments) (w : world St) :
  outfile (snd (main serve fuel args w)) = outfile w
  \/ (outfile (snd (main serve fuel args w)) = Written []
      /\ exists fieldnames, can_encode w (map JStr fieldnames) = false)
  \/ exists fieldnames records,
      outfile (snd (main serve fuel args w))
      = Written (map JStr fieldnames :: map (row_for fieldnames) records)
      /\ Forall (fits fieldnames) records
      /\ Forall (fun r : row => List.length r = List.length fieldnames)
                (map JStr fieldnames :: map (row_for fieldnames) records)
      /\ Forall (fun r : row => can_encode w r = true)
                (map JStr fieldnames :: map (row_for fieldnames) records).
Proof.
  rewrite main_of_export. unfold export. rewrite prepare_answer. cbv zeta.
  destruct (fst (serve (server w) _)) as [resp|]; [|now left].
  destruct (discover resp) as [fieldnames|e]; [|now left].
  destruct (can_open w); [|now left].
  destruct (can_encode w (map JStr fieldnames)) eqn:He.
  2:{ right. left. simpl. eauto. }
  set (w1 := mkWorld _ _ _ _ _ _ _).
  destruct (export_pages_written (make_api args) fieldnames _ fuel
              (all_contacts (opt_str (arg_customer_id args))) w1
              [map JStr fieldnames]
              (all_contacts_accesses (make_api args) _) eq_refl)
    as (records & E & F).
  right. right. exists fieldnames, records.
  assert (W : Forall (fun r : row => List.length r = List.length fieldnames)
                     (map JStr fieldnames
                      :: map (row_for fieldnames) records)).
  { constructor; [apply length_map|].
    apply Forall_forall. intros r Hr. apply in_map_iff in Hr as (rec & <- & _).
    apply row_for_length. }
  assert (C : Forall (fun r : row => can_encode w r = true)
                     (map JStr fieldnames
                      :: map (row_for fieldnames) records)).
  { constructor; [exact He|]. apply Forall_map.
    eapply Forall_impl; [|exact F]. now intros record [_ H]. }
  assert (F1 : Forall (fits fieldnames) records).
  { eapply Forall_impl; [|exact F]. now intros record [H _]. }
  destruct (export_pages serve fuel _ fieldnames _ w1) as [[[[]|e]|] w2];
    simpl in *; auto.
Qed.

Lemma _dict_to_list_fits (fieldnames : list string) (record : pydict) :
  fits fieldnames record ->
  _dict_to_list fieldnames (JObj record) = Ok (row_for fieldnames record).
Proof.
  intros F. simpl. now rewrite (proj2 (fits_forallb fieldnames record) F).
Qed.

Lemma _dict_to_list_extra (fieldnames : list string) (record : pydict) :
  ~ fits fieldnames record ->
  _dict_to_list fieldnames (JObj record) = Raise ValueError.
Proof.
  intros F. simpl. destruct (forallb _ (dict_keys record)) eqn:E; auto.
  apply fits_forallb in E. contradiction.
Qed.

Lemma write_each_fitting (fieldnames : list string) (records : list pydict)
    (tail : list json) (w : world St) (rows : list row) :
  outfile w = Written rows ->
  Forall (writable w fieldnames) records ->
  write_each fieldnames (map JObj records ++ tail) w
  = write_each fieldnames tail
      (with_outfile (Written (rows ++ map (row_for fieldnames) records)) w).
Proof.
  revert w rows. induction records as [|record records IH];
    intros w rows Hw F.
  - simpl. rewrite app_nil_r. f_equal.
    destruct w; simpl in *. unfold with_outfile. simpl. now rewrite Hw.
  - inversion F as [|? ? [F1 E1] F2]; subst.
    cbn [map app write_each]. unfold bind at 1, lift at 1.
    rewrite (_dict_to_list_fits _ _ F1). unfold bind at 1, write_row at 1.
    rewrite E1, Hw. cbn [rows_of]. set (w1 := mkWorld _ _ _ _ _ _ _).
    rewrite (IH w1 (rows ++ [row_for fieldnames record])%list eq_refl F2).
    unfold with_outfile, w1. simpl. now rewrite <- app_assoc.
Qed.

(** *** One step of the export pass *)

Lemma _get_all_start_ok (self : Syncro) (url_prefix : string)
    (parameters : option pydict) (w : world St)
    (resp : response) (s' : St) (data pg tp : json) :
  let u := base_url self ++ url_prefix in
  let first := mkRequest GET u (headers self)
                         (with_page parameters (JNum 1)) in
  serve (server w) first = (Answer resp, s') ->
  status_code resp = 200 ->
  body resp = Some data ->
  meta_get data "page" = Ok pg ->
  meta_get data "total_pages" = Ok tp ->
  _get_all_next serve self (GetAllStart url_prefix parameters) w
  = (Ok (Yield data,
         GetAllYielded u (if truthy parameters
                          then Some (with_page parameters (JNum 1))
                          else parameters) pg tp),
     mkWorld s' (sent w ++ [first]) (logged w) (printed w) (outfile w)
             (can_open w) (can_encode w)).
Proof.
  intros u first Es Hc Hb Hp Ht. cbn [_get_all_next]. unfold bind.
  fold u. rewrite (_get_page_ok serve self u parameters _ w resp s' data _ _
                     Es Hc Hb Hp Ht).
  reflexivity.
Qed.


(** A run whose first page of the export pass holds, after records the
    writer takes, an item it does not take, ends there. *)
Lemma main_stops_on_first_page (fuel : nat) (args : arguments)
    (w : world St) (resp resp' : response) (fieldnames : list string)
    (data pg tp : json) (good : list pydict) (tail : list json) (e : exn) :
  let api := make_api args in
  let peek := contacts_request api JNull (JNum 1) in
  let first :=
    contacts_request api (opt_str (arg_customer_id args)) (JNum 1) in
  fst (serve (server w) peek) = Answer resp ->
  discover resp = Ok fieldnames ->
  can_open w = true ->
  can_encode w (map JStr fieldnames) = true ->
  fst (serve (snd (serve (server w) peek)) first) = Answer resp' ->
  status_code resp' = 200 ->
  body resp' = Some data ->
  meta_get data "page" = Ok pg ->
  meta_get data "total_pages" = Ok tp ->
  py_get data "contacts" (JList []) = Ok (JList (map JObj good ++ tail)) ->
  Forall (writable w fieldnames) good ->
  (forall w0 : world St,
      can_encode w0 = can_encode w ->
      write_each fieldnames tail w0 = (Raise e, w0)) ->
  exists w',
    main serve (S fuel) args w = (Some 1, w')
    /\ logged w'
       = (logged w ++ [announcement args;
                       match e with
                       | APIError _ => ErrorLoadingContacts e
                       | _ => ErrorUnknown e
                       end])%list
    /\ outfile w'
       = Written (map JStr fieldnames :: map (row_for fieldnames) good)
    /\ sent w' = (sent w ++ [peek; first])%list
    /\ printed w' = printed w.
Proof.
  intros api peek first Hs Hd Ho He Hs' Hc Hb Hp Ht Hg Fg Ft.
  rewrite main_of_export. unfold export. rewrite prepare_answer. cbv zeta.
  fold api peek. rewrite Hs, Hd, Ho, He. set (w1 := mkWorld _ _ _ _ _ _ _).
  rewrite export_pages_S. unfold all_contacts_next.
  rewrite accessor_next_step. cbn [pages_of all_contacts].
  destruct (serve (snd (serve (server w) peek)) first) as [rep s2] eqn:Es.
  simpl in Hs'. subst rep.
  rewrite (_get_all_start_ok api "/contacts"
             (Some [("customer_id", opt_str (arg_customer_id args))])
             w1 resp' s2 data pg tp Es Hc Hb Hp Ht).
  unfold collection_of. rewrite Hg.
  unfold writerows, bind at 1, lift at 1. cbn [py_iter].
  set (w2 := mkWorld _ _ _ _ _ _ _).
  rewrite (write_each_fitting fieldnames good tail w2
             [map JStr fieldnames] eq_refl Fg).
  rewrite Ft by reflexivity.
  eexists. split; [reflexivity|]. simpl.
  rewrite <- !app_assoc. auto.
Qed.

(** X6. A record with a key that is no column of the header stops the
    export: when header discovery has succeeded, the header is in the file
    and the first page of the export pass holds such a record after some
    that were written, the run ends in the generic handler with a
    [ValueError] and exit code 1, and the file keeps the header and the rows
    of the records before the offending one. *)
Theorem X6_record_outside_header (fuel : nat) (args : arguments)
    (w : world St) (resp resp' : response) (fieldnames : list string)
    (data pg tp : json) (good : list pydict) (bad : pydict)
    (others : list json) :
  let api := make_api args in
  let peek := contacts_request api JNull (JNum 1) in
  let first :=
    contacts_request api (opt_str (arg_customer_id args)) (JNum 1) in
  fst (serve (server w) peek) = Answer resp ->
  discover resp = Ok fieldnames ->
  can_open w = true ->
  can_encode w (map JStr fieldnames) = true ->
  fst (serve (snd (serve (server w) peek)) first) = Answer resp' ->
  status_code resp' = 200 ->
  body resp' = Some data ->
  meta_get data "page" = Ok pg ->
  meta_get data "total_pages" = Ok tp ->
  py_get data "contacts" (JList [])
  = Ok (JList (map JObj good ++ JObj bad :: others)) ->
  Forall (fits fieldnames) good ->
  Forall (fun record => can_encode w (row_for fieldnames record) = true)
         good ->
  ~ fits fieldnames bad ->
  exists w',
    main serve (S fuel) args w = (Some 1, w')
    /\ logged w'
       = (logged w ++ [announcement args; ErrorUnknown ValueError])%list
    /\ outfile w'
       = Written (map JStr fieldnames :: map (row_for fieldnames) good)
    /\ sent w' = (sent w ++ [peek; first])%list
    /\ printed w' = printed w.
Proof.
  intros api peek first Hs Hd Ho He Hs' Hc Hb Hp Ht Hg Fg Eg Fb.
  apply (main_stops_on_first_page fuel args w resp resp' fieldnames data pg
           tp good (JObj bad :: others) ValueError Hs Hd Ho He Hs' Hc Hb Hp
           Ht Hg).
  - apply Forall_forall. intros record Hr. split.
    + exact (proj1 (Forall_forall _ _) Fg record Hr).
    + exact (proj1 (Forall_forall _ _) Eg record Hr).
  - intros w0 _. cbn [write_each]. unfold bind at 1, lift at 1.
    now rewrite (_dict_to_list_extra _ _ Fb).
Qed.

(** X15. A row the output file cannot encode stops the run in the generic
    handler with a [UnicodeEncodeError] and exit code 1, nothing printed.
    When it is the header, the file has been opened and stays empty, and
    the export pass never starts; when it is the row of a record on the
    first page of the export pass, the file keeps the header and the rows of
    the records before it. *)
Theorem X15_row_that_cannot_be_encoded (fuel : nat) (args : arguments)
    (w : world St) (resp : response) (fieldnames : list string) :
  let api := make_api args in
  let peek := contacts_request api JNull (JNum 1) in
  let first :=
    contacts_request api (opt_str (arg_customer_id args)) (JNum 1) in
  fst (serve (server w) peek) = Answer resp ->
  discover resp = Ok fieldnames ->
  can_open w = true ->
  (can_encode w (map JStr fieldnames) = false ->
   exists w',
     main serve fuel args w = (Some 1, w')
     /\ logged w'
        = (logged w ++ [announcement args;
                        ErrorUnknown UnicodeEncodeError])%list
     /\ outfile w' = Written []
     /\ sent w' = (sent w ++ [peek])%list
     /\ printed w' = printed w)
  /\ (forall resp' data pg tp good bad others,
         can_encode w (map JStr fieldnames) = true ->
         fst (serve (snd (serve (server w) peek)) first) = Answer resp' ->
         status_code resp' = 200 ->
         body resp' = Some data ->
         meta_get data "page" = Ok pg ->
         meta_get data "total_pages" = Ok tp ->
         py_get data "contacts" (JList [])
         = Ok (JList (map JObj good ++ JObj bad :: others)) ->
         Forall (writable w fieldnames) good ->
         fits fieldnames bad ->
         can_encode w (row_for fieldnames bad) = false ->
         exists w',
           main serve (S fuel) args w = (Some 1, w')
           /\ logged w'
              = (logged w ++ [announcement args;
                              ErrorUnknown UnicodeEncodeError])%list
           /\ outfile w'
              = Written (map JStr fieldnames
                         :: map (row_for fieldnames) good)
           /\ sent w' = (sent w ++ [peek; first])%list
           /\ printed w' = printed w).
Proof.
  intros api peek first Hs Hd Ho. split.
  - intros He. rewrite main_of_export. unfold export.
    rewrite prepare_answer. cbv zeta. fold api peek. rewrite Hs, Hd, Ho, He.
    eexists. split; [reflexivity|]. simpl. rewrite <- !app_assoc. auto.
  - intros resp' data pg tp good bad others He Hs' Hc Hb Hp Ht Hg Fg Fb Eb.
    apply (main_stops_on_first_page fuel args w resp resp' fieldnames data
             pg tp good (JObj bad :: others) UnicodeEncodeError Hs Hd Ho He
             Hs' Hc Hb Hp Ht Hg Fg).
    intros w0 E0. cbn [write_each]. unfold bind at 1, lift at 1.
    rewrite (_dict_to_list_fits _ _ Fb). unfold bind at 1, write_row at 1.
    now rewrite E0, Eb.
Qed.

(** *** A whole export *)





Lemma accessor_start_first (self : Syncro) (url_prefix key : string)
    (parameters : option pydict) (w : world St) :
  only_sent w
    (snd (accessor_next serve self url_prefix key (AccessorStart parameters) w))
    [mkRequest GET (base_url self ++ url_prefix) (headers self)
               (with_page parameters (JNum 1))].
Proof.
  rewrite accessor_next_step. cbn [pages_of _get_all_next]. unfold bind.
  pose proof (_get_page_sent serve self (base_url self ++ url_prefix)
                parameters (JNum 1) w) as H.
  now destruct (_get_page serve self _ parameters (JNum 1) w)
    as [[[p' [[data pg] tp]]|e] w1].
Qed.

(** X14. [all_customers] asks the customers endpoint for one page at a
    time, page 1 first, with a payload that holds the page number and
    nothing else: it starts from no parameters at all. *)
Theorem X14_all_customers_requests (self : Syncro) (fuel : nat)
    (w : world St) :
  exists reqs,
    only_sent w
      (snd (drain fuel (all_customers_next serve self) all_customers w)) reqs
    /\ Forall (fun r =>
                 meth r = GET
                 /\ url r = base_url self ++ "/customers"
                 /\ exists page, payload r = [("page", page)]) reqs
    /\ match fuel with
       | O => reqs = []
       | S _ => exists rest,
           reqs = mkRequest GET (base_url self ++ "/customers") (headers self)
                            [("page", JNum 1)] :: rest
       end.
Proof.
  assert (shape : forall reqs,
             Forall (page_request self (base_url self ++ "/customers") []) reqs ->
             Forall (fun r =>
                       meth r = GET
                       /\ url r = base_url self ++ "/customers"
                       /\ exists page, payload r = [("page", page)]) reqs).
  { intros reqs H. eapply Forall_impl; [|exact H].
    intros r [page ->]. simpl. eauto. }
  unfold all_customers_next, all_customers. destruct fuel as [|fuel].
  - exists []. simpl. auto using only_sent_refl.
  - cbn [drain].
    pose proof (accessor_start_first self "/customers" "customers" None w)
      as P.
    destruct (accessor_next_accesses serve self "/customers" "customers" []
                (AccessorStart None) w) as (reqs0 & _ & _ & _ & I).
    { intros page. reflexivity. }
    set (first := mkRequest GET (base_url self ++ "/customers") (headers self)
                    [("page", JNum 1)]).
    change (with_page None (JNum 1)) with [("page", JNum 1)] in P.
    fold first in P.
    assert (F1 : Forall (fun r =>
                           meth r = GET
                           /\ url r = base_url self ++ "/customers"
                           /\ exists page, payload r = [("page", page)])
                        [first]).
    { constructor; [|constructor]. simpl. eauto. }
    destruct (accessor_next serve self "/customers" "customers"
                (AccessorStart None) w) as [[[[x|] g']|e] w1]; simpl in P.
    + destruct (drain_accesses serve self "/customers" "customers" [] fuel
                  g' w1 (I _ _ eq_refl)) as (reqs' & H1 & H2).
      exists (first :: reqs'). split; [|split; [|eauto]].
      * destruct (drain fuel _ g' w1) as [[[xs|e]|] w2]; simpl in *;
          apply (only_sent_trans w w1 w2 [first] reqs'); auto.
      * constructor; [now inversion F1|]. now apply shape.
    + exists [first]. simpl. eauto.
    + exists [first]. simpl. eauto.
Qed.

End More.

(** * The properties on the test doubles *)

Lemma two_pages_paginated :
  paginated Mock.two_pages (base_url Mock.api ++ "/contacts") 2.
Proof.
  intros s r p _ _ Hp H1 H2. unfold Mock.two_pages. rewrite Hp.
  assert (E : p = 1 \/ p = 2) by lia.
  destruct E as [-> | ->]; eexists; eexists;
    (split; [reflexivity|]); repeat split; reflexivity.
Defined.

Lemma C1_witness :
  paginated Mock.two_pages (base_url Mock.api ++ "/contacts") 2
  /\ (exists pages w' reqs,
         drain 3 (_get_all_next Mock.two_pages Mock.api)
               (GetAllStart "/contacts" None) (Mock.fresh tt)
         = (Some (Ok pages), w')
         /\ List.length pages = 2%nat
         /\ map (fun data => meta_get data "page") pages
            = [Ok (JNum 1); Ok (JNum 2)]
         /\ only_sent (Mock.fresh tt) w' reqs
         /\ map page_of reqs = [Some (JNum 1); Some (JNum 2)])
  /\ (exists w',
         drain 2 (_get_all_next Mock.no_meta Mock.api)
               (GetAllStart "/contacts" None) (Mock.fresh tt)
         = (Some (Ok [JObj [("contacts",
                             JList [Mock.contact 1 "Ann" "ann@example.org"])]]),
            w')).
Proof.
  split; [exact two_pages_paginated|]. split.
  - destruct (C1_paginator_yields_all_pages Mock.two_pages Mock.api "/contacts"
                None (Mock.fresh tt)) as [H _].
    destruct (H 2 two_pages_paginated) as (_ & _ & H3).
    exact (H3 3%nat ltac:(simpl; lia)).
  - destruct (C1_paginator_yields_all_pages Mock.no_meta Mock.api "/contacts"
                None (Mock.fresh tt)) as [_ H].
    destruct (H (mkResponse 200 "OK"
                   (Some (JObj [("contacts",
                                 JList [Mock.contact 1 "Ann"
                                          "ann@example.org"])])))
                _ eq_refl eq_refl eq_refl (or_introl eq_refl))
      as (_ & _ & H3).
    destruct (H3 2%nat ltac:(lia)) as (w' & D & _).
    exists w'. exact D.
Defined.


Lemma C3_witness :
  500 <> 200
  /\ fst (_get_page Mock.broken Mock.api "https://acme.syncromsp.com/api/v1/contacts"
            None (JNum 1) (Mock.fresh tt))
     = Raise (APIError "Error Response from Syncro [500] (Internal Server Error)")
  /\ fst (create_contact Mock.broken Mock.api [("name", JStr "Ann")]
            (Mock.fresh tt))
     = Raise (APIError "Error Response from Syncro [500] (Internal Server Error)").
Proof.
  assert (H : status_code (mkResponse 500 "Internal Server Error" None) <> 200)
    by (simpl; lia).
  split; [exact H|].
  destruct (C3_non_200_raises_APIError Mock.broken Mock.api (Mock.fresh tt)
              (mkResponse 500 "Internal Server Error" None) tt H)
    as (G & P & _).
  split.
  - exact (G _ None (JNum 1) eq_refl).
  - exact (P [("name", JStr "Ann")] eq_refl).
Defined.

Lemma C4_witness :
  exists req,
    sent (snd (create_contact Mock.two_pages Mock.api
                 [("name", JStr "Ann"); ("role", JStr "admin");
                  ("zip", JNum 1000)] (Mock.fresh tt))) = [req]
    /\ dict_keys (payload req) = ["name"; "zip"].
Proof.
  destruct (C4_create_contact_allow_list Mock.two_pages Mock.api
              [("name", JStr "Ann"); ("role", JStr "admin");
               ("zip", JNum 1000)] (Mock.fresh tt))
    as (req & (S1 & _) & _ & _ & _ & K & _).
  exists req. split; [exact S1|exact K].
Defined.


Lemma C6_counterexample :
  ~ (forall r,
        In r (sent (snd (main Mock.two_pages 3 (Mock.args (Some "42"))
                              (Mock.fresh tt)))) ->
        url r = "https://acme.syncromsp.com/api/v1/contacts" ->
        dict_get "customer_id" (payload r) = Some (JStr "42")).
Proof.
  intros H.
  specialize (H (contacts_request (make_api (Mock.args (Some "42")))
                   JNull (JNum 1))).
  assert (E : dict_get "customer_id"
                (payload (contacts_request (make_api (Mock.args (Some "42")))
                            JNull (JNum 1)))
              = Some (JStr "42")).
  { apply H; [vm_compute; left; reflexivity | vm_compute; reflexivity]. }
  vm_compute in E. discriminate E.
Qed.

Lemma C6_witness :
  arg_customer_id (Mock.args (Some "42")) = Some "42"
  /\ exists first rest,
      sent (snd (main Mock.two_pages 3 (Mock.args (Some "42"))
                      (Mock.fresh tt)))
      = first :: rest
      /\ payload first = [("customer_id", JNull); ("page", JNum 1)]
      /\ Forall (fun r => exists page,
                     payload r = [("customer_id", JStr "42"); ("page", page)])
                rest.
Proof.
  split; [reflexivity|].
  destruct (C6_customer_id_on_export_pass Mock.two_pages 3
              (Mock.args (Some "42")) "42" (Mock.fresh tt) eq_refl)
    as [(first & rest & H1 & _ & H3 & H4) _].
  exists first, rest. split; [exact H1|]. split; [exact H3|].
  eapply Forall_impl; [|exact H4]. intros r [_ H]. exact H.
Defined.

Lemma C7_witness :
  let discovery :=
    get_headers (all_contacts_next Mock.two_pages Mock.api)
                (all_contacts JNull) (Mock.fresh tt) in
  fst discovery = Ok ["id"; "name"; "email"]
  /\ sent (snd discovery) = [contacts_request Mock.api JNull (JNum 1)]
  /\ exists tl,
      sent (snd (main Mock.two_pages 3 (Mock.args (Some "42"))
                      (Mock.fresh tt)))
      = contacts_request Mock.api JNull (JNum 1)
        :: contacts_request Mock.api (JStr "42") (JNum 1) :: tl.
Proof.
  destruct (C7_header_discovery_is_a_peek Mock.two_pages Mock.api JNull
              (Mock.fresh tt)) as ((S1 & _) & H & _ & R).
  split; [|split].
  - exact (H (mkResponse 200 "OK"
                (Some (Mock.page_body
                         [Mock.contact 1 "Ann" "ann@example.org";
                          Mock.contact 2 "Bob" "bob@example.org"] 1 2)))
             _ (JNum 1) (JNum 2) _ _
             eq_refl eq_refl eq_refl eq_refl eq_refl eq_refl).
  - exact S1.
  - destruct (R 2%nat (Mock.args (Some "42"))
                (mkResponse 200 "OK"
                   (Some (Mock.page_body
                            [Mock.contact 1 "Ann" "ann@example.org";
                             Mock.contact 2 "Bob" "bob@example.org"] 1 2)))
                ["id"; "name"; "email"] eq_refl eq_refl eq_refl eq_refl)
      as (tl & T & _).
    exists tl. exact T.
Defined.

Lemma C8_witness :
  (exists w',
      main Mock.broken 3 (Mock.args None) (Mock.fresh tt) = (Some 1, w')
      /\ outfile w' = Untouched)
  /\ (exists w',
         main Mock.fails_after_first 3 (Mock.args None) (Mock.fresh 0%nat)
         = (Some 1, w')
         /\ outfile w' = Written [[JStr "id"; JStr "name"; JStr "email"]]).
Proof.
  split.
  - destruct (C8_first_page_failure Mock.broken 3 (Mock.args None)
                (Mock.fresh tt)) as [H _].
    destruct (H (mkResponse 500 "Internal Server Error" None) eq_refl
                ltac:(simpl; lia)) as (w' & E & O & _).
    exists w'. split; [exact E|exact O].
  - destruct (C8_first_page_failure Mock.fails_after_first 2 (Mock.args None)
                (Mock.fresh 0%nat)) as [_ H].
    destruct (H (mkResponse 200 "OK"
                   (Some (Mock.page_body
                            [Mock.contact 1 "Ann" "ann@example.org"] 1 1)))
                ["id"; "name"; "email"]
                (mkResponse 500 "Internal Server Error" None)
                eq_refl eq_refl eq_refl eq_refl ltac:(simpl; lia))
      as (w' & E & _ & R).
    destruct R as (O & _).
    exists w'. split; [exact E|exact O].
Defined.

Lemma C9_witness :
  exists w',
    main Mock.no_contacts 3 (Mock.args None) (Mock.fresh tt) = (Some 1, w')
    /\ logged w' = [ErrorUnknown IndexError]
    /\ outfile w' = Untouched.
Proof.
  destruct (C9_empty_first_page Mock.no_contacts 3 (Mock.args None)
              (Mock.fresh tt)
              (mkResponse 200 "OK" (Some (Mock.page_body [] 1 1)))
              [("contacts", JList []);
               ("meta", JObj [("page", JNum 1); ("total_pages", JNum 1)])]
              eq_refl eq_refl eq_refl (or_intror eq_refl))
    as (e & w' & _ & _ & E & L & O & _ & I).
  rewrite (I (ex_intro _ (JNum 1)
                (ex_intro _ (JNum 1) (conj eq_refl eq_refl)))) in L.
  exists w'. split; [exact E|]. split; [exact L|exact O].
Defined.

Lemma C10_witness :
  arg_customer_id (Mock.args None) = None
  /\ exists reqs,
      sent (snd (main Mock.two_pages 3 (Mock.args None) (Mock.fresh tt)))
      = reqs
      /\ List.length reqs = 3%nat
      /\ Forall (fun r => exists page,
                     payload r = [("customer_id", JNull); ("page", page)])
                reqs.
Proof.
  split; [reflexivity|].
  destruct (C10_customer_id_null_when_omitted Mock.two_pages Mock.api
              (Mock.fresh tt)) as [_ H].
  destruct (H 3%nat (Mock.args None) eq_refl) as (reqs & H1 & H2).
  exists reqs. split; [exact H1|]. split.
  - apply (f_equal (@List.length _)) in H1. vm_compute in H1.
    symmetry. exact H1.
  - eapply Forall_impl; [|exact H2]. intros r (_ & _ & P). exact P.
Defined.

(** ** The further properties on the test doubles *)

Lemma stuck_at_one_stuck :
  stuck Mock.stuck_at_one (base_url Mock.api ++ "/contacts") 1 2.
Proof.
  intros s r _ _. eexists. eexists.
  split; [reflexivity|]. repeat split; reflexivity.
Defined.

Lemma X3_witness :
  stuck Mock.stuck_at_one (base_url Mock.api ++ "/contacts") 1 2
  /\ 1 < 2
  /\ fst (drain 5 (_get_all_next Mock.stuck_at_one Mock.api)
                (GetAllStart "/contacts" None) (Mock.fresh tt)) = None
  /\ exists reqs,
      only_sent (Mock.fresh tt)
        (snd (drain 5 (_get_all_next Mock.stuck_at_one Mock.api)
                    (GetAllStart "/contacts" None) (Mock.fresh tt))) reqs
      /\ List.length reqs = 5%nat
      /\ Forall (fun r => page_of r = Some (JNum (1 + 1))) (tl reqs).
Proof.
  split; [exact stuck_at_one_stuck|]. split; [lia|].
  exact (X3_stuck_server_never_ends Mock.stuck_at_one Mock.api "/contacts"
           None 1 2 5 (Mock.fresh tt) stuck_at_one_stuck ltac:(lia)).
Defined.

Lemma X4_witness :
  py_lt JNull JNull = None
  /\ exists w1,
      drain 3 (_get_all_next Mock.null_meta Mock.api)
            (GetAllStart "/contacts" None) (Mock.fresh tt)
      = (Some (Raise TypeError), w1)
      /\ List.length (sent w1) = 1%nat.
Proof.
  split; [reflexivity|].
  destruct (X4_unordered_pagination_data Mock.null_meta Mock.api "/contacts"
              None (Mock.fresh tt)
              (mkResponse 200 "OK"
                 (Some (JObj [("contacts",
                               JList [Mock.contact 1 "Ann" "ann@example.org"]);
                              ("meta", JObj [("page", JNull);
                                             ("total_pages", JNull)])])))
              (JObj [("contacts",
                      JList [Mock.contact 1 "Ann" "ann@example.org"]);
                     ("meta", JObj [("page", JNull); ("total_pages", JNull)])])
              JNull JNull eq_refl eq_refl eq_refl eq_refl eq_refl
              (or_introl eq_refl))
    as (g1 & w1 & _ & (S1 & _) & _ & D).
  exists w1. split; [exact (D 3%nat ltac:(lia))|].
  rewrite S1. reflexivity.
Defined.

Lemma X6_witness :
  exists w',
    main Mock.mixed 3 (Mock.args None) (Mock.fresh 0%nat) = (Some 1, w')
    /\ logged w' = [InfoDownloadingAll; ErrorUnknown ValueError]
    /\ outfile w'
       = Written [[JStr "id"; JStr "name"; JStr "email"];
                  [JNum 2; JStr "Bob"; JStr "bob@example.org"]].
Proof.
  assert (G : Forall (fits ["id"; "name"; "email"])
                     [[("id", JNum 2); ("name", JStr "Bob");
                       ("email", JStr "bob@example.org")]]).
  { constructor; [|constructor]. intros k Hk. exact Hk. }
  assert (B : ~ fits ["id"; "name"; "email"]
                [("id", JNum 3); ("phone", JStr "555")]).
  { intros F. specialize (F "phone" (or_intror (or_introl eq_refl))).
    simpl in F. destruct F as [F|[F|[F|[]]]]; discriminate F. }
  destruct (X6_record_outside_header Mock.mixed 2 (Mock.args None)
              (Mock.fresh 0%nat)
              (mkResponse 200 "OK"
                 (Some (Mock.page_body
                          [Mock.contact 1 "Ann" "ann@example.org"] 1 1)))
              (mkResponse 200 "OK"
                 (Some (Mock.page_body
                          [Mock.contact 2 "Bob" "bob@example.org";
                           JObj [("id", JNum 3); ("phone", JStr "555")]] 1 1)))
              ["id"; "name"; "email"]
              (Mock.page_body
                 [Mock.contact 2 "Bob" "bob@example.org";
                  JObj [("id", JNum 3); ("phone", JStr "555")]] 1 1)
              (JNum 1) (JNum 1)
              [[("id", JNum 2); ("name", JStr "Bob");
                ("email", JStr "bob@example.org")]]
              [("id", JNum 3); ("phone", JStr "555")] []
              eq_refl eq_refl eq_refl eq_refl eq_refl eq_refl eq_refl eq_refl
              eq_refl eq_refl G
              (Forall_cons _ eq_refl (Forall_nil _)) B)
    as (w' & E & L & O & _).
  exists w'. split; [exact E|]. split; [exact L|exact O].
Defined.

Lemma X7_witness :
  fst (get_headers (all_contacts_next Mock.no_contacts Mock.api)
                   (all_contacts JNull) (Mock.fresh tt))
  = Raise IndexError.
Proof.
  destruct (X7_get_headers_one_item
              (all_contacts_next Mock.no_contacts Mock.api)
              (all_contacts JNull) (Mock.fresh tt)) as (_ & _ & _ & I & _).
  assert (E : exists g',
             fst (all_contacts_next Mock.no_contacts Mock.api
                    (all_contacts JNull) (Mock.fresh tt))
             = Ok (Yield (JList []), g'))
    by (vm_compute; eexists; reflexivity).
  destruct E as [g' E]. exact (I g' E).
Defined.

Lemma X8_witness :
  exists p' x,
    fst (_get_page Mock.two_pages Mock.api
           "https://acme.syncromsp.com/api/v1/contacts"
           (Some [("customer_id", JNull)]) (JNum 1) (Mock.fresh tt))
    = Ok (p', x)
    /\ exists d', p' = Some d'
                  /\ dict_get "page" d' = Some (JNum 1)
                  /\ dict_get "customer_id" d' = Some JNull.
Proof.
  assert (E : exists p' x,
             fst (_get_page Mock.two_pages Mock.api
                    "https://acme.syncromsp.com/api/v1/contacts"
                    (Some [("customer_id", JNull)]) (JNum 1) (Mock.fresh tt))
             = Ok (p', x))
    by (vm_compute; eexists; eexists; reflexivity).
  destruct E as (p' & x & E). exists p', x. split; [exact E|].
  destruct (X8_get_page_writes_into_parameters Mock.two_pages Mock.api _ _ _ _
              _ _ E) as (_ & T & _).
  destruct (T eq_refl) as (d' & P1 & P2 & P3 & _).
  exists d'. split; [exact P1|]. split; [exact P2|].
  exact (P3 "customer_id" ltac:(discriminate)).
Defined.

Lemma X9_witness :
  NoDup (dict_keys [("name", JStr "Ann"); ("role", JStr "admin");
                    ("zip", JNum 1000)])
  /\ exists req,
      only_sent (Mock.fresh tt)
        (snd (create_contact Mock.two_pages Mock.api
                [("name", JStr "Ann"); ("role", JStr "admin");
                 ("zip", JNum 1000)] (Mock.fresh tt))) [req]
      /\ (List.length (payload req) <= 11)%nat.
Proof.
  assert (N : NoDup (dict_keys [("name", JStr "Ann"); ("role", JStr "admin");
                                ("zip", JNum 1000)])).
  { simpl. repeat constructor; simpl; intuition discriminate. }
  split; [exact N|].
  destruct (X9_create_contact_body_bound Mock.two_pages Mock.api _
              (Mock.fresh tt) N) as (req & S1 & L & _).
  exists req. split; [exact S1|exact L].
Defined.

Lemma X10_witness :
  printed (snd (main Mock.two_pages 3 (Mock.args None) (Mock.fresh tt)))
  = ["Contacts saved to contacts.csv"]
  /\ printed (snd (main Mock.broken 3 (Mock.args None) (Mock.fresh tt))) = [].
Proof.
  split.
  - destruct (X10_success_message Mock.two_pages 3 (Mock.args None)
                (Mock.fresh tt)) as (P & _).
    exact (proj1 (P ltac:(vm_compute; reflexivity))).
  - destruct (X10_success_message Mock.broken 3 (Mock.args None)
                (Mock.fresh tt)) as (_ & P & _).
    exact (P ltac:(vm_compute; discriminate)).
Defined.

Lemma X11_witness :
  exists w',
    main Mock.unreachable 3 (Mock.args None) (Mock.fresh tt) = (Some 1, w')
    /\ logged w' = [ErrorUnknown RequestException]
    /\ outfile w' = Untouched.
Proof.
  destruct (X11_failures_before_the_export Mock.unreachable 3 (Mock.args None)
              (Mock.fresh tt)) as (H & _).
  destruct (H eq_refl) as (w' & E & _ & L & _ & O).
  exists w'. split; [exact E|]. split; [exact L|exact O].
Defined.

Lemma X12_witness :
  arg_customer_id (Mock.args (Some "")) = Some ""
  /\ exists entries,
      logged (snd (main Mock.two_pages 3 (Mock.args (Some ""))
                        (Mock.fresh tt))) = entries
      /\ Forall (fun entry => forall c, entry <> InfoDownloadingCustomer c)
                entries.
Proof.
  split; [reflexivity|].
  destruct (X12_empty_customer_id Mock.two_pages 3 (Mock.args (Some ""))
              (Mock.fresh tt) eq_refl) as (_ & entries & L & F & _).
  exists entries. split; [exact L|exact F].
Defined.



Lemma X15_witness :
  exists w',
    main Mock.accented 3 (Mock.args None) (Mock.fresh_ascii tt) = (Some 1, w')
    /\ logged w' = [InfoDownloadingAll; ErrorUnknown UnicodeEncodeError]
    /\ outfile w'
       = Written [[JStr "id"; JStr "name"; JStr "email"];
                  [JNum 1; JStr "Ann"; JStr "ann@example.org"]].
Proof.
  assert (G : Forall (writable (Mock.fresh_ascii tt) ["id"; "name"; "email"])
                     [[("id", JNum 1); ("name", JStr "Ann");
                       ("email", JStr "ann@example.org")]]).
  { constructor; [|constructor]. split; [|reflexivity].
    intros k Hk. exact Hk. }
  assert (F : fits ["id"; "name"; "email"]
                [("id", JNum 2);
                 ("name", JStr (String (ascii_of_nat 201) "lodie"));
                 ("email", JStr "elodie@example.org")]).
  { intros k Hk. exact Hk. }
  destruct (X15_row_that_cannot_be_encoded Mock.accented 2 (Mock.args None)
              (Mock.fresh_ascii tt)
              (mkResponse 200 "OK"
                 (Some (Mock.page_body
                          [Mock.contact 1 "Ann" "ann@example.org";
                           Mock.contact 2 (String (ascii_of_nat 201) "lodie")
                                        "elodie@example.org"] 1 1)))
              ["id"; "name"; "email"] eq_refl eq_refl eq_refl) as [_ H].
  destruct (H (mkResponse 200 "OK"
                 (Some (Mock.page_body
                          [Mock.contact 1 "Ann" "ann@example.org";
                           Mock.contact 2 (String (ascii_of_nat 201) "lodie")
                                        "elodie@example.org"] 1 1)))
              (Mock.page_body
                 [Mock.contact 1 "Ann" "ann@example.org";
                  Mock.contact 2 (String (ascii_of_nat 201) "lodie")
                               "elodie@example.org"] 1 1)
              (JNum 1) (JNum 1)
              [[("id", JNum 1); ("name", JStr "Ann");
                ("email", JStr "ann@example.org")]]
              [("id", JNum 2);
               ("name", JStr (String (ascii_of_nat 201) "lodie"));
               ("email", JStr "elodie@example.org")]
              [] eq_refl eq_refl eq_refl eq_refl eq_refl eq_refl eq_refl
              G F eq_refl)
    as (w' & E & L & O & _).
  exists w'. split; [exact E|]. split; [exact L|exact O].
Defined.
